(** * Hull events calendar: the ICS serializer of [generate_hull_calendar.py]

    A shallow embedding of [_escape], [format_dt] and [build_ics], with
    the parts of Python's [str] and [datetime] they rely on, and the
    properties of the serializer proved over it. *)

From Stdlib Require Import ZArith Lia String Ascii List Bool DecimalString.
From Stdlib Require DecimalZ.
From stdpp Require Import base option list gmap strings.
Import ListNotations.

Local Open Scope string_scope.
Local Open Scope Z_scope.

(** ** Python strings

    A [str] is modelled as a [string]; the four characters the serializer
    looks at are ASCII, so the model does not depend on how the others are
    encoded. *)

Definition LF : ascii := "010"%char.
Definition CR : ascii := "013"%char.
Definition BACKSLASH : ascii := "\"%char.
Definition COMMA : ascii := ","%char.
Definition SEMICOLON : ascii := ";"%char.

Definition CRLF : string := String CR (String LF EmptyString).

(** [str.replace(old, new)] for a non-empty [old]: the occurrences are
    found from the left and do not overlap. [skip] counts the characters
    of an occurrence that are still to be dropped. *)
Fixpoint replace_from (old new s : string) (skip : nat) : string :=
  match s with
  | EmptyString => EmptyString
  | String c s' =>
      match skip with
      | S k => replace_from old new s' k
      | O =>
          if String.prefix old s
          then new ++ replace_from old new s' (String.length old - 1)
          else String c (replace_from old new s' 0)
      end
  end.

Definition str_replace (old new s : string) : string :=
  replace_from old new s 0.

(** [sep.join(lines)] *)
Fixpoint str_join (sep : string) (lines : list string) : string :=
  match lines with
  | [] => EmptyString
  | [l] => l
  | l :: rest => l ++ sep ++ str_join sep rest
  end.

(** The lines of a CRLF-delimited document: the reader's side of
    ["\r\n".join]. [cur] holds the current line, reversed. *)
Fixpoint split_crlf_from (cur : list ascii) (s : string) : list string :=
  match s with
  | EmptyString => [string_of_list_ascii (rev cur)]
  | String c s' =>
      match s' with
      | String d s'' =>
          if Ascii.eqb c CR && Ascii.eqb d LF
          then string_of_list_ascii (rev cur) :: split_crlf_from [] s''
          else split_crlf_from (c :: cur) s'
      | EmptyString => split_crlf_from (c :: cur) s'
      end
  end.

Definition split_crlf (s : string) : list string := split_crlf_from [] s.

(** Does the character occur in the string? *)
Fixpoint has_char (c : ascii) (s : string) : bool :=
  match s with
  | EmptyString => false
  | String d s' => Ascii.eqb c d || has_char c s'
  end.

(** The text escaping of [_escape] on a [str]: line 50 of the source. *)
Definition escape_str (text : string) : string :=
  str_replace ";" "\;"
    (str_replace "," "\,"
       (str_replace (String LF EmptyString) "\n"
          (str_replace "\" "\\" text))).

(** What the four replacements do to one character. *)
Definition escape_char (c : ascii) : string :=
  if Ascii.eqb c BACKSLASH then "\\"
  else if Ascii.eqb c LF then "\n"
  else if Ascii.eqb c COMMA then "\,"
  else if Ascii.eqb c SEMICOLON then "\;"
  else String c EmptyString.

Fixpoint escape_chars (s : string) : string :=
  match s with
  | EmptyString => EmptyString
  | String c s' => escape_char c ++ escape_chars s'
  end.

(** The inverse rule of the format (RFC 5545, TEXT): a backslash and the
    character after it stand for one character. This is the reader's
    side; it is not part of the program. *)
Fixpoint unescape_from (s : string) (escaped : bool) : string :=
  match s with
  | EmptyString => EmptyString
  | String c s' =>
      if escaped
      then String (if Ascii.eqb c "n"%char then LF else c)
                  (unescape_from s' false)
      else if Ascii.eqb c BACKSLASH then unescape_from s' true
      else String c (unescape_from s' false)
  end.

Definition unescape (s : string) : string := unescape_from s false.

(** ** Python's [datetime]: the proleptic Gregorian calendar

    The definitions follow the pure-Python [datetime] module
    ([_is_leap], [_days_before_year], [_ymd2ord], [_ord2ymd], ...), which
    [astimezone] and [strftime] go through. *)

Record date := mkdate { year : Z; month : Z; day : Z }.

(** The fields of a [datetime] apart from its [tzinfo]. *)
Record dtime := mkdtime {
  dt_date : date;
  hour : Z;
  minute : Z;
  second : Z;
  microsecond : Z
}.

(** A [timedelta], in microseconds. *)
Definition timedelta := Z.

Definition MINYEAR : Z := 1.
Definition MAXYEAR : Z := 9999.
Definition MAXORDINAL : Z := 3652059.
Definition DI400Y : Z := 146097.
Definition DI100Y : Z := 36524.
Definition DI4Y : Z := 1461.
Definition US_PER_SECOND : Z := 1000000.
Definition US_PER_DAY : Z := 86400 * 1000000.

Definition is_leap (y : Z) : bool :=
  (y mod 4 =? 0) && (negb (y mod 100 =? 0) || (y mod 400 =? 0)).

Definition DAYS_IN_MONTH (m : Z) : Z :=
  match m with
  | 1 => 31 | 2 => 28 | 3 => 31 | 4 => 30 | 5 => 31 | 6 => 30
  | 7 => 31 | 8 => 31 | 9 => 30 | 10 => 31 | 11 => 30 | 12 => 31
  | _ => -1
  end.

Definition DAYS_BEFORE_MONTH (m : Z) : Z :=
  match m with
  | 1 => 0 | 2 => 31 | 3 => 59 | 4 => 90 | 5 => 120 | 6 => 151
  | 7 => 181 | 8 => 212 | 9 => 243 | 10 => 273 | 11 => 304 | 12 => 334
  | _ => -1
  end.

Definition days_before_year (y : Z) : Z :=
  let y := y - 1 in
  y * 365 + y / 4 - y / 100 + y / 400.

Definition days_in_month (y m : Z) : Z :=
  if (m =? 2) && is_leap y then 29 else DAYS_IN_MONTH m.

Definition days_before_month (y m : Z) : Z :=
  DAYS_BEFORE_MONTH m + (if (2 <? m) && is_leap y then 1 else 0).

Definition ymd2ord (d : date) : Z :=
  days_before_year (year d) + days_before_month (year d) (month d) + day d.

Definition ord2ymd (n : Z) : date :=
  let n := n - 1 in
  let n400 := n / DI400Y in
  let n := n mod DI400Y in
  let y := n400 * 400 + 1 in
  let n100 := n / DI100Y in
  let n := n mod DI100Y in
  let n4 := n / DI4Y in
  let n := n mod DI4Y in
  let n1 := n / 365 in
  let n := n mod 365 in
  let y := y + n100 * 100 + n4 * 4 + n1 in
  if (n1 =? 4) || (n100 =? 4) then mkdate (y - 1) 12 31
  else
    let leapyear := (n1 =? 3) && (negb (n4 =? 24) || (n100 =? 3)) in
    let m := Z.shiftr (n + 50) 5 in
    let preceding :=
      DAYS_BEFORE_MONTH m + (if (2 <? m) && leapyear then 1 else 0) in
    if n <? preceding
    then
      let m := m - 1 in
      let preceding :=
        preceding
        - (DAYS_IN_MONTH m + (if (m =? 2) && leapyear then 1 else 0)) in
      mkdate y m (n - preceding + 1)
    else mkdate y m (n - preceding + 1).

(** The values a [date] and a [datetime] object can hold. *)
Definition valid_date (d : date) : Prop :=
  MINYEAR <= year d <= MAXYEAR /\ 1 <= month d <= 12
  /\ 1 <= day d <= days_in_month (year d) (month d).

Definition valid_dtime (t : dtime) : Prop :=
  valid_date (dt_date t) /\ 0 <= hour t < 24 /\ 0 <= minute t < 60
  /\ 0 <= second t < 60 /\ 0 <= microsecond t < US_PER_SECOND.

(** A [tzinfo]'s [utcoffset] lies strictly between -24 h and 24 h. *)
Definition valid_offset (off : timedelta) : Prop :=
  - US_PER_DAY < off < US_PER_DAY.

(** Microseconds from the start of day 0 of the calendar. *)
Definition dtime_to_us (t : dtime) : Z :=
  (ymd2ord (dt_date t) * 86400
   + hour t * 3600 + minute t * 60 + second t) * US_PER_SECOND
  + microsecond t.

(** The instant an aware [datetime] denotes, on the UTC time line. *)
Definition instant (t : dtime) (utcoffset : timedelta) : Z :=
  dtime_to_us t - utcoffset.

(** ** Exceptions and results *)

Inductive exn := AttributeError | TypeError | OverflowError | ValueError.

Inductive result (A : Type) :=
| Ok (a : A)
| Raise (e : exn).
Arguments Ok {A} a.
Arguments Raise {A} e.

(** [datetime.__sub__] with a [timedelta]: the days, seconds and
    microseconds are normalised, and a day outside [1, MAXORDINAL] is an
    [OverflowError]. *)
Definition dtime_sub (t : dtime) (delta : timedelta) : result dtime :=
  let us := dtime_to_us t - delta in
  let days := us / US_PER_DAY in
  let rest := us mod US_PER_DAY in
  let seconds := rest / US_PER_SECOND in
  let micro := rest mod US_PER_SECOND in
  let h := seconds / 3600 in
  let rem := seconds mod 3600 in
  let mi := rem / 60 in
  let s := rem mod 60 in
  if (0 <? days) && (days <=? MAXORDINAL)
  then Ok (mkdtime (ord2ymd days) h mi s micro)
  else Raise OverflowError.

(** ** [strftime] *)

Definition digit (n : Z) : ascii := ascii_of_nat (48 + Z.to_nat n).

Definition pad2 (n : Z) : string :=
  String (digit (n / 10)) (String (digit (n mod 10)) EmptyString).

Definition pad4 (n : Z) : string :=
  String (digit (n / 1000))
    (String (digit (n / 100 mod 10))
       (String (digit (n / 10 mod 10)) (String (digit (n mod 10)) EmptyString))).

Definition pad6 (n : Z) : string :=
  pad2 (n / 10000) ++ pad2 (n / 100 mod 100) ++ pad2 (n mod 100).

(** [%Y] as the C library behind [strftime] prints it (glibc): the
    decimal digits of the year, with no padding, so that a year below
    1000 takes fewer than four characters. The years of a [date] lie in
    1..9999. *)
Definition format_Y (y : Z) : string :=
  if y <? 10 then String (digit y) EmptyString
  else if y <? 100 then pad2 y
  else if y <? 1000 then String (digit (y / 100)) (pad2 (y mod 100))
  else pad4 y.

(** How many characters [%Y] takes. *)
Definition year_width (y : Z) : nat :=
  if y <? 10 then 1 else if y <? 100 then 2 else if y <? 1000 then 3 else 4.

(** [d.strftime("%Y%m%d")] *)
Definition strftime_Ymd (d : date) : string :=
  format_Y (year d) ++ pad2 (month d) ++ pad2 (day d).

(** [t.strftime("%Y%m%dT%H%M%SZ")] *)
Definition strftime_YmdTHMSZ (t : dtime) : string :=
  strftime_Ymd (dt_date t) ++ "T"
  ++ pad2 (hour t) ++ pad2 (minute t) ++ pad2 (second t) ++ "Z".

(** The time of day in it: [t.strftime("%H%M%S")]. *)
Definition strftime_HMS (t : dtime) : string :=
  pad2 (hour t) ++ pad2 (minute t) ++ pad2 (second t).

Definition is_digit (c : ascii) : bool :=
  (48 <=? nat_of_ascii c)%nat && (nat_of_ascii c <=? 57)%nat.

Fixpoint all_digits (s : string) : bool :=
  match s with
  | EmptyString => true
  | String c s' => is_digit c && all_digits s'
  end.

(** ** Python values

    The values an event record may hold under a key: the ones the
    serializer is written for (text, dates, timestamps, [None]) and an
    integer as an instance of unexpected data. A [datetime] carries its
    fields and, when it is aware, the [utcoffset] of its [tzinfo]. *)

Inductive pyval :=
| VNone
| VStr (s : string)
| VInt (n : Z)
| VDate (d : date)
| VDateTime (t : dtime) (tz : option timedelta).

(** [bool(v)] *)
Definition truthy (v : pyval) : bool :=
  match v with
  | VNone => false
  | VStr s => negb (String.eqb s "")
  | VInt n => negb (n =? 0)
  | VDate _ => true
  | VDateTime _ _ => true
  end.

(** [str(timedelta)] as [isoformat] prints a UTC offset. *)
Definition format_offset (off : timedelta) : string :=
  let sign := if off <? 0 then "-" else "+" in
  let a := Z.abs off in
  let hh := a / (3600 * US_PER_SECOND) in
  let r := a mod (3600 * US_PER_SECOND) in
  let mm := r / (60 * US_PER_SECOND) in
  let r := r mod (60 * US_PER_SECOND) in
  let ss := r / US_PER_SECOND in
  let us := r mod US_PER_SECOND in
  sign ++ pad2 hh ++ ":" ++ pad2 mm
  ++ (if (ss =? 0) && (us =? 0) then "" else ":" ++ pad2 ss)
  ++ (if us =? 0 then "" else "." ++ pad6 us).

Definition isoformat_date (d : date) : string :=
  pad4 (year d) ++ "-" ++ pad2 (month d) ++ "-" ++ pad2 (day d).

(** [str(v)], which is what an f-string field prints. *)
Definition py_str (v : pyval) : string :=
  match v with
  | VNone => "None"
  | VStr s => s
  | VInt n => NilEmpty.string_of_int (Z.to_int n)
  | VDate d => isoformat_date d
  | VDateTime t tz =>
      isoformat_date (dt_date t) ++ " "
      ++ pad2 (hour t) ++ ":" ++ pad2 (minute t) ++ ":" ++ pad2 (second t)
      ++ (if microsecond t =? 0 then "" else "." ++ pad6 (microsecond t))
      ++ match tz with
         | None => ""
         | Some off => format_offset off
         end
  end.

(** ** The environment of a run

    What the serializer reads from outside: the clock, the random
    identifiers and the time zone of the machine. The zone is what
    [localtime()] reports: the UTC offset in force at an instant, in
    seconds, which is less than a day either way. Instants are counted in
    seconds from the start of day 0 of the calendar, as [utc_to_seconds]
    counts them. A [dtime] has no [fold] attribute; [naive_fold] tells
    the one the naive [datetime] of these fields carries (0 unless it was
    set). *)
Record env := mkenv {
  utcnow : dtime;                (* datetime.datetime.utcnow() *)
  uuid4 : nat -> string;         (* str(uuid.uuid4()), call by call *)
  tz_gmtoff : Z -> Z;            (* localtime(u).tm_gmtoff *)
  naive_fold : dtime -> bool;    (* dt.fold *)
  tz_bounded : forall u, - 86400 < tz_gmtoff u < 86400
}.

(** ** Helpers of the source *)

(** [_escape(text)]: lines 47-50. A value that is not text has no
    string [replace]. *)
Definition _escape (text : pyval) : result string :=
  if negb (truthy text) then Ok ""
  else match text with
       | VStr s => Ok (escape_str s)
       | VDate _ | VDateTime _ _ => Raise TypeError
       | _ => Raise AttributeError
       end.

(** *** The local time zone of a naive [datetime]

    [astimezone] on a naive value first looks up the zone the machine
    has at that local time ([local_timezone_from_local] of the datetime
    module). The search probes [localtime] around the value, and each
    probe rejects a local year outside 1..9999 with a [ValueError]. *)

(** [utc_to_seconds(year, month, day, hour, minute, second)] *)
Definition utc_to_seconds (t : dtime) : Z :=
  ((ymd2ord (dt_date t) * 24 + hour t) * 60 + minute t) * 60 + second t.

Definition MAX_FOLD_SECONDS : Z := 24 * 3600.

(** [local(u)]: the local wall clock at the instant [u], in seconds;
    [utc_to_seconds] refuses the fields [localtime] returned when their
    year is out of range. *)
Definition local (e : env) (u : Z) : result Z :=
  let w := u + tz_gmtoff e u in
  if (86400 <=? w) && (w <? (MAXORDINAL + 1) * 86400)
  then Ok w
  else Raise ValueError.

(** The end of [local_to_seconds], once both candidate offsets are
    known: try the second offset [b], and settle a gap. *)
Definition local_to_seconds_end (e : env) (fold : bool) (t t1 u1 b : Z)
  : result Z :=
  let u2 := t - b in
  match local e u2 with
  | Raise ex => Raise ex
  | Ok t2 =>
      if t2 =? t then Ok u2
      else if t1 =? t then Ok u1
      else Ok (if fold then Z.min u1 u2 else Z.max u1 u2)
  end.

(** [local_to_seconds(year, ..., second, fold)]: solve [t = local(u)]
    for [u]. *)
Definition local_to_seconds (e : env) (dt : dtime) (fold : bool)
  : result Z :=
  let t := utc_to_seconds dt in
  match local e t with
  | Raise ex => Raise ex
  | Ok lt =>
      let a := lt - t in
      let u1 := t - a in
      match local e u1 with
      | Raise ex => Raise ex
      | Ok t1 =>
          if t1 =? t then
            let u2 :=
              if fold then u1 + MAX_FOLD_SECONDS else u1 - MAX_FOLD_SECONDS in
            match local e u2 with
            | Raise ex => Raise ex
            | Ok lt =>
                let b := lt - u2 in
                if a =? b then Ok u1
                else local_to_seconds_end e fold t t1 u1 b
            end
          else local_to_seconds_end e fold t t1 u1 (t1 - u1)
      end
  end.

(** [local_timezone_from_local(dt).utcoffset(dt)]: the offset in force
    at the instant found, made a [timezone], whose constructor wants it
    strictly within a day. *)
Definition local_timezone_from_local (e : env) (dt : dtime)
  : result timedelta :=
  match local_to_seconds e dt (naive_fold e dt) with
  | Raise ex => Raise ex
  | Ok u =>
      let off := tz_gmtoff e u in
      if (- 86400 <? off) && (off <? 86400)
      then Ok (off * US_PER_SECOND)
      else Raise ValueError
  end.

(** The local UTC offset of a naive [datetime], in seconds: the one the
    lookup finds, when it finds one. *)
Definition local_gmtoff (e : env) (dt : dtime) : Z :=
  match local_to_seconds e dt (naive_fold e dt) with
  | Ok u => tz_gmtoff e u
  | Raise _ => 0
  end.

(** [dt.astimezone(datetime.timezone.utc)]: a naive value is read as the
    machine's local time; the offset is then subtracted. *)
Definition astimezone_utc (e : env) (t : dtime) (tz : option timedelta)
  : result dtime :=
  match tz with
  | None =>
      match local_timezone_from_local e t with
      | Ok off => dtime_sub t off
      | Raise ex => Raise ex
      end
  | Some off => dtime_sub t off
  end.

(** [hasattr(dt, "astimezone")] *)
Definition has_astimezone (dt : pyval) : bool :=
  match dt with
  | VDateTime _ _ => true
  | _ => false
  end.

(** [format_dt(dt)]: lines 52-63. A [date] that is not a [datetime] is
    stamped as it is; of the other values only a [datetime] has a
    [tzinfo], and both branches of the test on it go through
    [astimezone]. *)
Definition format_dt (e : env) (dt : pyval) : result (string * bool) :=
  match dt with
  | VDate d => Ok (strftime_Ymd d, true)
  | VDateTime t tz =>
      let dt_utc :=
        match tz with
        | None =>
            if has_astimezone dt then astimezone_utc e t None else Ok t
        | Some off => astimezone_utc e t (Some off)
        end in
      match dt_utc with
      | Ok dt_utc => Ok (strftime_YmdTHMSZ dt_utc, false)
      | Raise ex => Raise ex
      end
  | _ => Raise AttributeError
  end.

(** ** The serializer's state: the [lines] list, the log, and how many
    identifiers were drawn. *)

Inductive log_entry :=
| LogWarning (summary : string)
| LogException (summary : option pyval) (ex : exn).

Record state := mkstate {
  lines : list string;
  log : list log_entry;
  uuid_calls : nat
}.

Definition M (A : Type) : Type := state -> result A * state.

#[global] Instance M_ret : MRet M := fun A a s => (Ok a, s).

#[global] Instance M_bind : MBind M := fun A B f m s =>
  match m s with
  | (Ok a, s') => f a s'
  | (Raise ex, s') => (Raise ex, s')
  end.

Definition lift {A} (r : result A) : M A := fun s => (r, s).

Definition lines_append (l : string) : M unit := fun s =>
  (Ok tt, mkstate (lines s ++ [l]) (log s) (uuid_calls s)).

Definition lines_init (ls : list string) : M unit := fun s =>
  (Ok tt, mkstate ls (log s) (uuid_calls s)).

Definition lines_get : M (list string) := fun s => (Ok (lines s), s).

Definition logging (entry : log_entry) : M unit := fun s =>
  (Ok tt, mkstate (lines s) (log s ++ [entry]) (uuid_calls s)).

Definition uuid_uuid4 (e : env) : M pyval := fun s =>
  (Ok (VStr (uuid4 e (uuid_calls s))),
   mkstate (lines s) (log s) (S (uuid_calls s))).

Definition try_except (body : M unit) (handler : exn -> M unit) : M unit :=
  fun s =>
    match body s with
    | (Ok a, s') => (Ok a, s')
    | (Raise ex, s') => handler ex s'
    end.

Fixpoint for_each {A} (l : list A) (body : A -> M unit) : M unit :=
  match l with
  | [] => mret tt
  | x :: l' => body x ;; for_each l' body
  end.

Definition when (b : bool) (m : M unit) : M unit :=
  if b then m else mret tt.

(** ** [build_ics] *)

Definition event := gmap string pyval.

Definition get (ev : event) (key : string) (dflt : pyval) : pyval :=
  default dflt (ev !! key).

Definition HEADER : list string :=
  [ "BEGIN:VCALENDAR"; "VERSION:2.0"; "CALSCALE:GREGORIAN";
    "METHOD:PUBLISH"; "PRODID:-//Hull Events & Cinema//EN" ].

Definition FOOTER : string := "END:VCALENDAR".

(** [a or b] on a value already computed and a computation. *)
Definition or_else (a : pyval) (b : M pyval) : M pyval :=
  if truthy a then mret a else b.

(** The body of the [try] of lines 75-104 for one record. *)
Definition event_body (e : env) (nowstamp : string) (ev : event) : M unit :=
  uid ← or_else (get ev "uid" VNone) (uuid_uuid4 e);
  summary ← lift (_escape (get ev "summary" (VStr "No title")));
  location ← lift (_escape (get ev "location" (VStr "")));
  description ← lift (_escape (get ev "description" (VStr "")));
  let start := get ev "start" VNone in
  if negb (truthy start) then logging (LogWarning summary)
  else
    '(dtstr, is_date_only) ← lift (format_dt e start);
    lines_append "BEGIN:VEVENT";;
    lines_append ("UID:" ++ py_str uid);;
    lines_append ("DTSTAMP:" ++ nowstamp);;
    (if is_date_only : bool
     then lines_append ("DTSTART;VALUE=DATE:" ++ dtstr)
     else lines_append ("DTSTART:" ++ dtstr));;
    when (truthy (get ev "end" VNone))
      ('(endstr, end_is_date) ← lift (format_dt e (get ev "end" VNone));
       if end_is_date : bool
       then lines_append ("DTEND;VALUE=DATE:" ++ endstr)
       else lines_append ("DTEND:" ++ endstr));;
    lines_append ("SUMMARY:" ++ summary);;
    when (negb (String.eqb location ""))
      (lines_append ("LOCATION:" ++ location));;
    when (negb (String.eqb description ""))
      (lines_append ("DESCRIPTION:" ++ description));;
    lines_append "END:VEVENT".

(** One turn of the loop: the [try] and its [except Exception]. *)
Definition event_step (e : env) (nowstamp : string) (ev : event) : M unit :=
  try_except (event_body e nowstamp ev)
    (fun ex => logging (LogException (ev !! "summary") ex)).

Definition build_ics_m (e : env) (events : list event) : M string :=
  lines_init HEADER;;
  let nowstamp := strftime_YmdTHMSZ (utcnow e) in
  for_each events (event_step e nowstamp);;
  lines_append FOOTER;;
  ls ← lines_get;
  mret (str_join CRLF ls).

Definition state0 : state := mkstate [] [] 0.

(** A run of [build_ics]: what it returns or raises, and the state it
    leaves (the lines it joined, the log). *)
Definition build_ics_run (e : env) (events : list event) : result string * state :=
  build_ics_m e events state0.

Definition build_ics (e : env) (events : list event) : result string :=
  fst (build_ics_run e events).

Definition build_ics_lines (e : env) (events : list event) : list string :=
  lines (snd (build_ics_run e events)).

Definition build_ics_log (e : env) (events : list event) : list log_entry :=
  log (snd (build_ics_run e events)).

(** ** Definitions used by the statements *)

(** Replacing one character by a string, from left to right. *)
Fixpoint subst_char (a : ascii) (new s : string) : string :=
  match s with
  | EmptyString => EmptyString
  | String c s' =>
      if Ascii.eqb a c then new ++ subst_char a new s'
      else String c (subst_char a new s')
  end.

(** [strip_prefix p s] is [Some r] when [s] is [p ++ r]. *)
Fixpoint strip_prefix (p s : string) : option string :=
  match p with
  | EmptyString => Some s
  | String a p' =>
      match s with
      | EmptyString => None
      | String b s' => if Ascii.eqb a b then strip_prefix p' s' else None
      end
  end.

(** The identifiers a list of lines carries: what follows [UID:]. *)
Definition uid_lines (ls : list string) : list string :=
  omap (strip_prefix "UID:") ls.

(** The identifiers the records bring themselves. *)
Definition supplied_uid (ev : event) : option string :=
  let u := get ev "uid" VNone in
  if truthy u then Some (py_str u) else None.

Definition supplied_uids (events : list event) : list string :=
  omap supplied_uid events.

(** The identifier a record gets, from the number of identifiers drawn
    before it. *)
Definition resolved_uid (e : env) (ev : event) (n : nat) : string :=
  match supplied_uid ev with
  | Some u => u
  | None => uuid4 e n
  end.

(** How many complete blocks a list of lines closes. *)
Fixpoint count_blocks (ls : list string) : nat :=
  match ls with
  | [] => 0
  | l :: rest => (if String.eqb l "END:VEVENT" then 1 else 0) + count_blocks rest
  end.

(** Is the line a SUMMARY, LOCATION or DESCRIPTION property? *)
Definition is_text_line (l : string) : bool :=
  match strip_prefix "SUMMARY:" l, strip_prefix "LOCATION:" l,
        strip_prefix "DESCRIPTION:" l with
  | None, None, None => false
  | _, _, _ => true
  end.

(** The number a string of decimal digits writes. *)
Fixpoint decimal_from (acc : Z) (s : string) : Z :=
  match s with
  | EmptyString => acc
  | String c s' => decimal_from (acc * 10 + (Z.of_nat (nat_of_ascii c) - 48)) s'
  end.

Definition decimal_value (s : string) : Z := decimal_from 0 s.

(** A value [_escape] accepts: text, or anything falsy. *)
Definition is_text (v : pyval) : bool :=
  match v with
  | VStr _ => true
  | _ => negb (truthy v)
  end.

Definition text_fields_ok (ev : event) : Prop :=
  is_text (get ev "summary" (VStr "No title")) = true
  /\ is_text (get ev "location" (VStr "")) = true
  /\ is_text (get ev "description" (VStr "")) = true.

Definition is_warning (entry : log_entry) : bool :=
  match entry with
  | LogWarning _ => true
  | LogException _ _ => false
  end.

(** What one turn of the loop adds, from the number of identifiers
    drawn before it. *)
Definition step_out (e : env) (nowstamp : string) (ev : event) (n : nat) : state :=
  snd (event_step e nowstamp ev (mkstate [] [] n)).

Definition loop_out (e : env) (nowstamp : string) (events : list event) (n : nat)
  : state :=
  snd (for_each events (event_step e nowstamp) (mkstate [] [] n)).

(** The property tags whose value is escaped text. *)
Definition TEXT_TAGS : list string := ["SUMMARY:"; "LOCATION:"; "DESCRIPTION:"].

(** The last steps of [ord2ymd]: the month and the day from the day of
    the year, counted from 0. *)
Definition month_day (y : Z) (leapyear : bool) (n : Z) : date :=
  let m := Z.shiftr (n + 50) 5 in
  let preceding :=
    DAYS_BEFORE_MONTH m + (if (2 <? m) && leapyear then 1 else 0) in
  if n <? preceding
  then
    let m := m - 1 in
    let preceding :=
      preceding
      - (DAYS_IN_MONTH m + (if (m =? 2) && leapyear then 1 else 0)) in
    mkdate y m (n - preceding + 1)
  else mkdate y m (n - preceding + 1).

(** The check of [month_day] on one day of the year. *)
Definition month_day_ok (leapyear : bool) (n : Z) : bool :=
  let d := month_day 0 leapyear n in
  (1 <=? month d) && (month d <=? 12) && (1 <=? day d)
  && (day d <=? DAYS_IN_MONTH (month d)
                + (if (month d =? 2) && leapyear then 1 else 0))
  && (DAYS_BEFORE_MONTH (month d)
      + (if (2 <? month d) && leapyear then 1 else 0) + day d =? n + 1).

(** The instants [dtime_sub] can represent. *)
Definition representable (us : Z) : Prop :=
  US_PER_DAY <= us < (MAXORDINAL + 1) * US_PER_DAY.

(** ** Sample data for the examples *)

Definition sample_uuid (n : nat) : string :=
  "00000000-0000-4000-8000-" ++ NilEmpty.string_of_int (Z.to_int (100000000000 + Z.of_nat n)).

(** A machine on UTC, and one an hour ahead of it (British Summer Time). *)
Definition env_utc : env :=
  mkenv (mkdtime (mkdate 2025 1 15) 9 0 0 0) sample_uuid
    (fun _ => 0) (fun _ => false) (fun _ => conj eq_refl eq_refl).

Definition env_bst : env :=
  mkenv (mkdtime (mkdate 2025 6 15) 9 0 0 0) sample_uuid
    (fun _ => 3600) (fun _ => false) (fun _ => conj eq_refl eq_refl).

Definition noon_1_june : dtime := mkdtime (mkdate 2024 6 1) 12 0 0 0.

(** A date and a UTC timestamp of the year 999. *)
Definition date_999 : date := mkdate 999 1 2.

Definition noon_999 : dtime := mkdtime (mkdate 999 6 1) 12 0 0 0.

Definition ev_date_999 : event :=
  {[ "uid" := VStr "a"; "summary" := VStr "X"; "start" := VDate date_999 ]}.

Definition ev_noon_999 : event :=
  {[ "uid" := VStr "a"; "summary" := VStr "X";
     "start" := VDateTime noon_999 (Some 0) ]}.

Definition ev_all_day : event :=
  {[ "summary" := VStr "Wicked"; "start" := VDate (mkdate 2024 12 25) ]}.

Definition ev_uid_a : event :=
  {[ "uid" := VStr "a"; "summary" := VStr "Dune"; "start" := VDate (mkdate 2024 3 1) ]}.

Definition ev_bad_end : event :=
  {[ "uid" := VStr "a"; "summary" := VStr "X";
     "start" := VDate (mkdate 2024 1 1); "end" := VStr "tomorrow" ]}.

Definition ev_no_start : event := {[ "summary" := VStr "Jimmy Carr" ]}.

Definition ev_no_start_int_summary : event := {[ "summary" := VInt 5 ]}.

(** ** The event source: [sample_events] and its caller *)

(** What a call outside the serializer's [try] can raise: the
    [ValueError] of a constructor, or another of the exceptions above. *)
Definition raised := exn.
Definition Raised (ex : exn) : raised := ex.

Inductive outcome (A : Type) :=
| Returns (a : A)
| Raises (x : raised).
Arguments Returns {A} a.
Arguments Raises {A} x.

(** [datetime.datetime(year, month, day, hour, minute)]: the constructor
    checks its fields. *)
Definition check_date_fields (y m d : Z) : bool :=
  (MINYEAR <=? y) && (y <=? MAXYEAR) && (1 <=? m) && (m <=? 12)
  && (1 <=? d) && (d <=? days_in_month y m).

Definition check_time_fields (h mi : Z) : bool :=
  (0 <=? h) && (h <? 24) && (0 <=? mi) && (mi <? 60).

Definition datetime_new (y m d h mi : Z) : outcome dtime :=
  if check_date_fields y m d && check_time_fields h mi
  then Returns (mkdtime (mkdate y m d) h mi 0 0)
  else Raises ValueError.

(** [date + datetime.timedelta(days=n)] *)
Definition date_add_days (d : date) (n : Z) : outcome date :=
  let o := ymd2ord d + n in
  if (0 <? o) && (o <=? MAXORDINAL) then Returns (ord2ymd o)
  else Raises (Raised OverflowError).

(** The three records of lines 25-44, from their starts. *)
Definition sample_records (start1 : dtime) (start2 start3 : date) : list event :=
  [ {[ "summary" := VStr "Jimmy Carr: Laughs Funny";
       "location" := VStr "Connexin Live, Hull";
       "start" := VDateTime start1 None;
       "description" := VStr "Connexin Live show — check tickets." ]};
    {[ "summary" := VStr "Wicked — Opening Weekend (sample)";
       "location" := VStr "Vue Hull Princes Quay";
       "start" := VDate start2;
       "description" := VStr "Cinema opening (sample entry)" ]};
    {[ "summary" := VStr "Dune: Part Two — Sample";
       "location" := VStr "Odeon Luxe Hull";
       "start" := VDate start3;
       "description" := VStr "Sample cinema entry" ]} ].

(** [sample_events()]: lines 22-44. [today k] is what the call number
    [k] of [datetime.date.today()] returns; the function reads the clock
    three times, once for [now] and once for each all-day record. *)
Definition sample_events (today : nat -> date) : outcome (list event) :=
  let now := today 0%nat in
  match datetime_new (year now) (month now) (Z.min (day now + 10) 28) 19 30 with
  | Raises x => Raises x
  | Returns start1 =>
      match date_add_days (today 1%nat) 30 with
      | Raises x => Raises x
      | Returns start2 =>
          match date_add_days (today 2%nat) 15 with
          | Raises x => Raises x
          | Returns start3 => Returns (sample_records start1 start2 start3)
          end
      end
  end.

(** [fetch_real_events_placeholder()]: lines 110-115. *)
Definition fetch_real_events_placeholder (today : nat -> date)
  : outcome (list event) :=
  sample_events today.

(** ** More definitions for the statements *)

(** The characters [_escape] rewrites. *)
Definition is_special (c : ascii) : bool :=
  Ascii.eqb c BACKSLASH || Ascii.eqb c LF || Ascii.eqb c COMMA
  || Ascii.eqb c SEMICOLON.

Fixpoint count_special (s : string) : nat :=
  match s with
  | EmptyString => 0
  | String c s' => (if is_special c then 1 else 0) + count_special s'
  end.

(** Escaped text as the format reads it: a backslash is followed by one
    of backslash, [n], comma and semicolon, and no newline, comma or
    semicolon stands on its own. [pending] tells that a backslash was
    just read. *)
Fixpoint well_escaped_from (s : string) (pending : bool) : bool :=
  match s with
  | EmptyString => negb pending
  | String c s' =>
      if pending
      then (Ascii.eqb c BACKSLASH || Ascii.eqb c "n"%char || Ascii.eqb c COMMA
            || Ascii.eqb c SEMICOLON)
           && well_escaped_from s' false
      else if Ascii.eqb c BACKSLASH then well_escaped_from s' true
      else negb (Ascii.eqb c LF || Ascii.eqb c COMMA || Ascii.eqb c SEMICOLON)
           && well_escaped_from s' false
  end.

Definition well_escaped (s : string) : bool := well_escaped_from s false.

(** The offset [astimezone] subtracts from a timestamp. *)
Definition utcoffset_of (e : env) (t : dtime) (tz : option timedelta) : timedelta :=
  match tz with
  | None => local_gmtoff e t * US_PER_SECOND
  | Some off => off
  end.

(** How many lines start with a tag. *)
Fixpoint count_tag (tag : string) (ls : list string) : nat :=
  match ls with
  | [] => 0
  | l :: rest =>
      (match strip_prefix tag l with Some _ => 1 | None => 0 end)
      + count_tag tag rest
  end.

(** A record whose start is written and whose [end] then fails to
    format. *)
Definition end_faults (e : env) (ev : event) : bool :=
  is_text (get ev "summary" (VStr "No title"))
  && is_text (get ev "location" (VStr ""))
  && is_text (get ev "description" (VStr ""))
  && truthy (get ev "start" VNone)
  && match format_dt e (get ev "start" VNone) with Ok _ => true | Raise _ => false end
  && truthy (get ev "end" VNone)
  && match format_dt e (get ev "end" VNone) with Ok _ => false | Raise _ => true end.

(** The lines of the events of a document, between header and footer. *)
Definition event_lines (e : env) (events : list event) : list string :=
  lines (loop_out e (strftime_YmdTHMSZ (utcnow e)) events 0).

(** The same environment after [k] identifiers were drawn. *)
Definition shift_uuid (e : env) (k : nat) : env :=
  mkenv (utcnow e) (fun n => uuid4 e (k + n))
    (tz_gmtoff e) (naive_fold e) (tz_bounded e).

(** How many records bring no usable uid, and so draw an identifier. *)
Definition drawn (events : list event) : nat :=
  length (List.filter (fun ev => negb (truthy (get ev "uid" VNone))) events).

(** A clock that always reads the same day. *)
Definition fixed_clock (d : date) : nat -> date := fun _ => d.

(** A start or end that is a [date] is a date that exists. *)
Definition valid_start (v : pyval) : Prop :=
  match v with
  | VDate d => valid_date d
  | _ => True
  end.

(** ** Strings *)

Lemma str_app_cons (c : ascii) (s t : string) :
  (String c s ++ t)%string = String c (s ++ t).
Proof. reflexivity. Qed.

Lemma str_app_nil_l (s : string) : (EmptyString ++ s)%string = s.
Proof. reflexivity. Qed.

Ltac str_norm := rewrite ?str_app_cons, ?str_app_nil_l.

Lemma str_app_assoc (a b c : string) : ((a ++ b) ++ c)%string = (a ++ b ++ c)%string.
Proof. induction a as [|x a IH]; str_norm; [reflexivity | now rewrite IH]. Qed.

Lemma str_app_nil_r (s : string) : (s ++ EmptyString)%string = s.
Proof. induction s as [|x a IH]; str_norm; [reflexivity | now rewrite IH]. Qed.

Lemma prefix_single (a c : ascii) (s : string) :
  String.prefix (String a EmptyString) (String c s) = Ascii.eqb a c.
Proof.
  simpl. destruct (ascii_dec a c) as [->|Hne].
  - rewrite Ascii.eqb_refl. now destruct s.
  - symmetry. now apply Ascii.eqb_neq.
Qed.

Lemma str_replace_char (a : ascii) (new s : string) :
  str_replace (String a EmptyString) new s = subst_char a new s.
Proof.
  unfold str_replace. induction s as [|c s IH]; [reflexivity|].
  cbn [replace_from subst_char]. rewrite prefix_single.
  cbn [String.length Nat.sub]. rewrite IH. reflexivity.
Qed.

Lemma subst_char_app (a : ascii) (new s t : string) :
  subst_char a new (s ++ t) = (subst_char a new s ++ subst_char a new t)%string.
Proof.
  induction s as [|c s IH]; [reflexivity|].
  str_norm. cbn [subst_char]. destruct (Ascii.eqb a c).
  - now rewrite IH, str_app_assoc.
  - str_norm. now rewrite IH.
Qed.

Lemma escape_char_cases (c : ascii) :
  c = BACKSLASH \/ c = LF \/ c = COMMA \/ c = SEMICOLON
  \/ (Ascii.eqb BACKSLASH c = false /\ Ascii.eqb LF c = false
      /\ Ascii.eqb COMMA c = false /\ Ascii.eqb SEMICOLON c = false
      /\ escape_char c = String c EmptyString).
Proof.
  unfold escape_char.
  destruct (Ascii.eqb c BACKSLASH) eqn:E1; [apply Ascii.eqb_eq in E1; auto|].
  destruct (Ascii.eqb c LF) eqn:E2; [apply Ascii.eqb_eq in E2; auto|].
  destruct (Ascii.eqb c COMMA) eqn:E3; [apply Ascii.eqb_eq in E3; auto|].
  destruct (Ascii.eqb c SEMICOLON) eqn:E4; [apply Ascii.eqb_eq in E4; auto|].
  do 4 right. rewrite !(Ascii.eqb_sym _ c), E1, E2, E3, E4. auto.
Qed.

Lemma subst_chain_one (c : ascii) :
  subst_char SEMICOLON "\;"
    (subst_char COMMA "\,"
       (subst_char LF "\n" (subst_char BACKSLASH "\\" (String c EmptyString))))
  = escape_char c.
Proof.
  destruct (escape_char_cases c) as [->|[->|[->|[->|(E1 & E2 & E3 & E4 & Ec)]]]];
    try reflexivity.
  rewrite Ec. cbn [subst_char]. rewrite E1. cbn [subst_char].
  rewrite E2. cbn [subst_char]. rewrite E3. cbn [subst_char]. now rewrite E4.
Qed.

Lemma escape_str_chars (s : string) : escape_str s = escape_chars s.
Proof.
  unfold escape_str.
  rewrite (str_replace_char BACKSLASH), (str_replace_char LF),
    (str_replace_char COMMA), (str_replace_char SEMICOLON).
  induction s as [|c s IH]; [reflexivity|].
  change (String c s) with (String c EmptyString ++ s)%string.
  rewrite !subst_char_app, IH, subst_chain_one. reflexivity.
Qed.

Lemma unescape_from_escape_char (c : ascii) (s : string) :
  unescape_from (escape_char c ++ s) false = String c (unescape_from s false).
Proof.
  destruct (escape_char_cases c) as [->|[->|[->|[->|(E1 & E2 & E3 & E4 & Ec)]]]];
    try reflexivity.
  rewrite Ec. str_norm. cbn [unescape_from].
  now rewrite Ascii.eqb_sym, E1.
Qed.

Lemma unescape_escape_chars (s : string) : unescape (escape_chars s) = s.
Proof.
  unfold unescape. induction s as [|c s IH]; [reflexivity|].
  cbn [escape_chars]. now rewrite unescape_from_escape_char, IH.
Qed.

Lemma has_char_app (c : ascii) (s t : string) :
  has_char c (s ++ t) = has_char c s || has_char c t.
Proof.
  induction s as [|x s IH]; [reflexivity|].
  str_norm. cbn [has_char]. now rewrite IH, orb_assoc.
Qed.

Lemma escape_chars_no_LF (s : string) : has_char LF (escape_chars s) = false.
Proof.
  induction s as [|c s IH]; [reflexivity|].
  cbn [escape_chars]. rewrite has_char_app, IH, orb_false_r.
  destruct (escape_char_cases c) as [->|[->|[->|[->|(E1 & E2 & E3 & E4 & Ec)]]]];
    try reflexivity.
  rewrite Ec. cbn [has_char]. now rewrite E2.
Qed.

Lemma _escape_text (s : string) : _escape (VStr s) = Ok (escape_str s).
Proof.
  unfold _escape. cbn [truthy]. destruct s as [|c s]; reflexivity.
Qed.

Lemma _escape_ok_inv (v : pyval) (r : string) :
  _escape v = Ok r -> exists s, r = escape_chars s.
Proof.
  unfold _escape. destruct (truthy v).
  - destruct v; cbn; intros H; try discriminate.
    injection H as <-. eexists. apply escape_str_chars.
  - cbn. intros H. injection H as <-. now exists EmptyString.
Qed.

(** ** Joining and splitting lines *)

Local Open Scope list_scope.

Lemma str_join_cons (sep l : string) (ls : list string) :
  ls <> [] -> str_join sep (l :: ls) = (l ++ sep ++ str_join sep ls)%string.
Proof. destruct ls; [congruence | reflexivity]. Qed.

Lemma str_join_app (sep : string) (a b : list string) :
  a <> [] -> b <> [] ->
  str_join sep (a ++ b) = (str_join sep a ++ sep ++ str_join sep b)%string.
Proof.
  intros Ha Hb. induction a as [|l a IH]; [congruence|].
  destruct a as [|l' a].
  - cbn [app]. now rewrite str_join_cons.
  - rewrite <- app_comm_cons, str_join_cons by (now destruct a).
    rewrite IH by discriminate.
    rewrite (str_join_cons sep l) by discriminate.
    now rewrite !str_app_assoc.
Qed.

Lemma split_crlf_from_cons2 (cur : list ascii) (c d : ascii) (s : string) :
  split_crlf_from cur (String c (String d s))
  = if Ascii.eqb c CR && Ascii.eqb d LF
    then string_of_list_ascii (rev cur) :: split_crlf_from [] s
    else split_crlf_from (c :: cur) (String d s).
Proof. reflexivity. Qed.

Lemma split_crlf_from_sep (n : nat) :
  forall (a : string) (cur : list ascii) (b : string),
    (String.length a <= n)%nat ->
    split_crlf_from cur (a ++ CRLF ++ b)
    = split_crlf_from cur a ++ split_crlf_from [] b.
Proof.
  induction n as [|n IH]; intros a cur b Hlen.
  - destruct a; [reflexivity | cbn in Hlen; lia].
  - destruct a as [|c [|d a]].
    + reflexivity.
    + assert (Hc : Ascii.eqb c CR && Ascii.eqb CR LF = false)
        by (now rewrite andb_false_r).
      unfold CRLF. str_norm. cbn [split_crlf_from]. rewrite Hc.
      reflexivity.
    + str_norm. rewrite !split_crlf_from_cons2.
      destruct (Ascii.eqb c CR && Ascii.eqb d LF).
      * cbn [app]. f_equal. apply IH. cbn in Hlen. lia.
      * rewrite <- (IH (String d a) (c :: cur) b) by (cbn in *; lia).
        reflexivity.
Qed.

Lemma split_crlf_sep (a b : string) :
  split_crlf (a ++ CRLF ++ b) = split_crlf a ++ split_crlf b.
Proof. apply (split_crlf_from_sep (String.length a)). lia. Qed.

Lemma string_of_rev_cons (c : ascii) (cur : list ascii) (s : string) :
  (string_of_list_ascii (rev (c :: cur)) ++ s)%string
  = (string_of_list_ascii (rev cur) ++ String c s)%string.
Proof.
  cbn [rev]. generalize (rev cur) as l. intros l.
  induction l as [|x l IH]; cbn [app string_of_list_ascii]; str_norm.
  - reflexivity.
  - now rewrite IH.
Qed.

Lemma split_crlf_from_no_LF (l : string) :
  forall cur : list ascii,
    has_char LF l = false ->
    split_crlf_from cur l = [(string_of_list_ascii (rev cur) ++ l)%string].
Proof.
  induction l as [|c l IH]; intros cur H.
  - cbn. now rewrite str_app_nil_r.
  - cbn [has_char] in H. apply orb_false_elim in H as [_ H].
    cbn [split_crlf_from]. destruct l as [|d l].
    + cbn [split_crlf_from]. now rewrite <- string_of_rev_cons, str_app_nil_r.
    + assert (Hd : Ascii.eqb d LF = false).
      { cbn [has_char] in H. apply orb_false_elim in H as [Hd _].
        now rewrite Ascii.eqb_sym. }
      rewrite Hd, andb_false_r, IH by exact H.
      now rewrite string_of_rev_cons.
Qed.

Lemma split_crlf_no_LF (l : string) :
  has_char LF l = false -> split_crlf l = [l].
Proof. intros H. unfold split_crlf. now rewrite split_crlf_from_no_LF. Qed.

Lemma split_crlf_join (ls : list string) :
  ls <> [] -> split_crlf (str_join CRLF ls) = concat (map split_crlf ls).
Proof.
  induction ls as [|l ls IH]; [congruence|]. intros _.
  destruct ls as [|l' ls].
  - cbn. now rewrite app_nil_r.
  - rewrite str_join_cons, split_crlf_sep, IH by discriminate. reflexivity.
Qed.

Lemma split_crlf_line (pre post : list string) (l : string) :
  pre <> [] -> post <> [] -> has_char LF l = false ->
  split_crlf (str_join CRLF (pre ++ l :: post))
  = split_crlf (str_join CRLF pre) ++ [l] ++ split_crlf (str_join CRLF post).
Proof.
  intros Hpre Hpost Hl.
  rewrite str_join_app, str_join_cons by (assumption || discriminate).
  now rewrite !split_crlf_sep, (split_crlf_no_LF l).
Qed.

(** ** One turn of the loop *)

Ltac unfold_step :=
  unfold step_out, event_step, try_except, event_body, or_else, lift, when,
    uuid_uuid4, lines_append, logging, mbind, M_bind, mret, M_ret;
  cbn [lines log uuid_calls fst snd].

Ltac case_step :=
  repeat (cbn [lines log uuid_calls fst snd app];
          match goal with
          | |- context [match ?x with _ => _ end] =>
              match x with
              | _escape _ => destruct x eqn:?
              | format_dt _ _ => destruct x as [[? []]|?] eqn:?
              | truthy _ => destruct x eqn:?
              | negb _ => destruct x eqn:?
              end
          end);
  cbn [lines log uuid_calls fst snd app].

Lemma event_step_frame (e : env) (now : string) (ev : event) (s : state) :
  event_step e now ev s
  = (Ok tt,
     mkstate (lines s ++ lines (step_out e now ev (uuid_calls s)))
             (log s ++ log (step_out e now ev (uuid_calls s)))
             (uuid_calls (step_out e now ev (uuid_calls s)))).
Proof.
  destruct s as [l0 g0 n]. unfold_step. case_step.
  all: rewrite ?app_nil_r, <- ?app_assoc; reflexivity.
Qed.

Lemma step_out_calls (e : env) (now : string) (ev : event) (n : nat) :
  uuid_calls (step_out e now ev n)
  = if truthy (get ev "uid" VNone) then n else S n.
Proof. unfold_step. case_step. all: reflexivity. Qed.

Lemma step_out_count (e : env) (now : string) (ev : event) (n : nat) :
  (count_blocks (lines (step_out e now ev n))
   + length (log (step_out e now ev n)) = 1)%nat.
Proof. unfold_step. case_step. all: reflexivity. Qed.

Lemma step_out_footer (e : env) (now : string) (ev : event) (n : nat) :
  FOOTER ∉ lines (step_out e now ev n).
Proof.
  unfold_step. case_step.
  all: repeat (apply not_elem_of_cons; split; [discriminate|]).
  all: apply not_elem_of_nil.
Qed.

Lemma step_out_uid (e : env) (now : string) (ev : event) (n : nat) :
  uid_lines (lines (step_out e now ev n)) = []
  \/ uid_lines (lines (step_out e now ev n)) = [resolved_uid e ev n].
Proof.
  unfold resolved_uid, supplied_uid. unfold_step. case_step.
  all: try (left; reflexivity).
  all: right; reflexivity.
Qed.

Lemma _escape_no_LF (v : pyval) (r : string) :
  _escape v = Ok r -> has_char LF r = false.
Proof.
  intros H. apply _escape_ok_inv in H as [s ->]. apply escape_chars_no_LF.
Qed.

Lemma tagged_text_no_LF (tag : string) (v : pyval) (r : string) :
  has_char LF tag = false -> _escape v = Ok r ->
  has_char LF (tag ++ r) = false.
Proof.
  intros Ht Hr. now rewrite has_char_app, Ht, (_escape_no_LF v r).
Qed.

Lemma step_out_text (e : env) (now : string) (ev : event) (n : nat) :
  Forall (fun l => is_text_line l = true -> has_char LF l = false)
    (lines (step_out e now ev n)).
Proof.
  unfold_step. case_step.
  all: repeat (constructor;
               [first [ discriminate
                      | intros _; eapply tagged_text_no_LF;
                        [reflexivity | eassumption] ]|]).
  all: constructor.
Qed.

(** ** The loop and the whole run *)

Lemma for_each_cons {A} (x : A) (l : list A) (body : A -> M unit) (s : state) :
  for_each (x :: l) body s
  = match body x s with
    | (Ok _, s') => for_each l body s'
    | (Raise ex, s') => (Raise ex, s')
    end.
Proof. reflexivity. Qed.

Lemma loop_out_nil (e : env) (now : string) (n : nat) :
  loop_out e now [] n = mkstate [] [] n.
Proof. reflexivity. Qed.

Lemma for_each_frame (e : env) (now : string) (events : list event) :
  forall s : state,
    for_each events (event_step e now) s
    = (Ok tt,
       mkstate (lines s ++ lines (loop_out e now events (uuid_calls s)))
               (log s ++ log (loop_out e now events (uuid_calls s)))
               (uuid_calls (loop_out e now events (uuid_calls s)))).
Proof.
  induction events as [|ev events IH]; intros s.
  - destruct s. cbn. now rewrite !app_nil_r.
  - unfold loop_out. rewrite !for_each_cons, !event_step_frame.
    rewrite !IH. cbn [lines log uuid_calls snd app].
    now rewrite !app_assoc.
Qed.

Lemma loop_out_cons (e : env) (now : string) (ev : event) (events : list event)
  (n : nat) :
  loop_out e now (ev :: events) n
  = let o := step_out e now ev n in
    let r := loop_out e now events (uuid_calls o) in
    mkstate (lines o ++ lines r) (log o ++ log r) (uuid_calls r).
Proof.
  unfold loop_out at 1. rewrite for_each_cons, event_step_frame, for_each_frame.
  reflexivity.
Qed.

Lemma loop_out_app (e : env) (now : string) (evs1 evs2 : list event) :
  forall n : nat,
    loop_out e now (evs1 ++ evs2) n
    = let o := loop_out e now evs1 n in
      let r := loop_out e now evs2 (uuid_calls o) in
      mkstate (lines o ++ lines r) (log o ++ log r) (uuid_calls r).
Proof.
  induction evs1 as [|ev evs1 IH]; intros n.
  - cbn [app]. rewrite loop_out_nil. cbn. now destruct (loop_out e now evs2 n).
  - rewrite <- app_comm_cons, !loop_out_cons. cbv zeta. rewrite IH.
    cbn [lines log uuid_calls]. now rewrite !app_assoc.
Qed.

Lemma build_ics_run_eq (e : env) (events : list event) :
  let o := loop_out e (strftime_YmdTHMSZ (utcnow e)) events 0 in
  let ls := HEADER ++ lines o ++ [FOOTER] in
  build_ics_run e events
  = (Ok (str_join CRLF ls), mkstate ls (log o) (uuid_calls o)).
Proof.
  unfold build_ics_run, build_ics_m, state0.
  unfold mbind at 1, M_bind at 1, lines_init. cbn [log uuid_calls].
  unfold mbind at 1, M_bind at 1. rewrite for_each_frame.
  unfold mbind, M_bind, lines_append, lines_get, mret, M_ret.
  cbn [lines log uuid_calls app]. now rewrite <- !app_assoc.
Qed.

Lemma build_ics_lines_eq (e : env) (events : list event) :
  build_ics_lines e events
  = HEADER ++ lines (loop_out e (strftime_YmdTHMSZ (utcnow e)) events 0)
    ++ [FOOTER].
Proof. unfold build_ics_lines. now rewrite build_ics_run_eq. Qed.

Lemma build_ics_log_eq (e : env) (events : list event) :
  build_ics_log e events
  = log (loop_out e (strftime_YmdTHMSZ (utcnow e)) events 0).
Proof. unfold build_ics_log. now rewrite build_ics_run_eq. Qed.

Lemma build_ics_eq (e : env) (events : list event) :
  build_ics e events = Ok (str_join CRLF (build_ics_lines e events)).
Proof. unfold build_ics, build_ics_lines. now rewrite build_ics_run_eq. Qed.

Lemma loop_out_footer (e : env) (now : string) (events : list event) :
  forall n : nat, FOOTER ∉ lines (loop_out e now events n).
Proof.
  induction events as [|ev events IH]; intros n.
  - apply not_elem_of_nil.
  - rewrite loop_out_cons. cbn [lines]. rewrite elem_of_app.
    intros [H|H]; [now apply step_out_footer in H | now apply IH in H].
Qed.

Lemma count_blocks_app (a b : list string) :
  count_blocks (a ++ b) = (count_blocks a + count_blocks b)%nat.
Proof. induction a as [|l a IH]; cbn; [reflexivity | rewrite IH; lia]. Qed.

Lemma loop_out_count (e : env) (now : string) (events : list event) :
  forall n : nat,
    (count_blocks (lines (loop_out e now events n))
     + length (log (loop_out e now events n)) = length events)%nat.
Proof.
  induction events as [|ev events IH]; intros n; [reflexivity|].
  rewrite loop_out_cons. cbn [lines log length].
  rewrite count_blocks_app, length_app.
  pose proof (step_out_count e now ev n).
  pose proof (IH (uuid_calls (step_out e now ev n))). lia.
Qed.

Lemma loop_out_text (e : env) (now : string) (events : list event) :
  forall n : nat,
    Forall (fun l => is_text_line l = true -> has_char LF l = false)
      (lines (loop_out e now events n)).
Proof.
  induction events as [|ev events IH]; intros n; [constructor|].
  rewrite loop_out_cons. cbn [lines]. apply Forall_app. split.
  - apply step_out_text.
  - apply IH.
Qed.

(** ** The calendar *)

Lemma days_before_year_split (q n100 n4 n1 : Z) :
  0 <= n100 <= 3 -> 0 <= n4 <= 24 -> 0 <= n1 <= 3 ->
  days_before_year (400 * q + 100 * n100 + 4 * n4 + n1 + 1)
  = DI400Y * q + DI100Y * n100 + DI4Y * n4 + 365 * n1.
Proof.
  intros H100 H4 H1. unfold days_before_year, DI400Y, DI100Y, DI4Y.
  Z.div_mod_to_equations. lia.
Qed.

Lemma is_leap_split (q n100 n4 n1 : Z) :
  0 <= n100 <= 3 -> 0 <= n4 <= 24 -> 0 <= n1 <= 3 ->
  is_leap (400 * q + 100 * n100 + 4 * n4 + n1 + 1)
  = (n1 =? 3) && (negb (n4 =? 24) || (n100 =? 3)).
Proof.
  intros H100 H4 H1. unfold is_leap.
  destruct (Z.eqb_spec n1 3), (Z.eqb_spec n4 24), (Z.eqb_spec n100 3);
    cbn [andb orb negb];
    repeat match goal with
           | |- context [?a mod ?b =? 0] =>
               destruct (Z.eqb_spec (a mod b) 0)
           end;
    cbn [andb orb negb]; try reflexivity; exfalso;
    Z.div_mod_to_equations; lia.
Qed.

Lemma month_day_all (leapyear : bool) :
  forallb (month_day_ok leapyear) (map Z.of_nat (seq 0 365)) = true.
Proof. destruct leapyear; vm_compute; reflexivity. Qed.

Lemma month_day_year (y : Z) (leapyear : bool) (n : Z) :
  month_day y leapyear n
  = mkdate y (month (month_day 0 leapyear n)) (day (month_day 0 leapyear n)).
Proof. unfold month_day. cbv zeta. now destruct (n <? _). Qed.

Lemma month_day_spec (y : Z) (leapyear : bool) (n : Z) :
  0 <= n < 365 ->
  let d := month_day y leapyear n in
  year d = y /\ 1 <= month d <= 12
  /\ 1 <= day d <= DAYS_IN_MONTH (month d)
                   + (if (month d =? 2) && leapyear then 1 else 0)
  /\ DAYS_BEFORE_MONTH (month d)
     + (if (2 <? month d) && leapyear then 1 else 0) + day d = n + 1.
Proof.
  intros Hn. cbv zeta. rewrite month_day_year. cbn [year month day].
  pose proof (month_day_all leapyear) as Hall.
  rewrite forallb_forall in Hall.
  specialize (Hall n). unfold month_day_ok in Hall. cbv zeta in Hall.
  assert (Hin : In n (map Z.of_nat (seq 0 365))).
  { apply in_map_iff. exists (Z.to_nat n). split; [lia|].
    apply in_seq. lia. }
  apply Hall in Hin. rewrite !andb_true_iff in Hin.
  destruct Hin as ((((H1 & H2) & H3) & H4) & H5). lia.
Qed.

Lemma ord2ymd_unfold (n : Z) :
  ord2ymd n
  = let n0 := n - 1 in
    let n400 := n0 / DI400Y in
    let r400 := n0 mod DI400Y in
    let n100 := r400 / DI100Y in
    let r100 := r400 mod DI100Y in
    let n4 := r100 / DI4Y in
    let r4 := r100 mod DI4Y in
    let n1 := r4 / 365 in
    let r1 := r4 mod 365 in
    let y := n400 * 400 + 1 + n100 * 100 + n4 * 4 + n1 in
    if (n1 =? 4) || (n100 =? 4) then mkdate (y - 1) 12 31
    else month_day y ((n1 =? 3) && (negb (n4 =? 24) || (n100 =? 3))) r1.
Proof. reflexivity. Qed.

Lemma ord2ymd_spec (n : Z) :
  1 <= n <= MAXORDINAL ->
  valid_date (ord2ymd n) /\ ymd2ord (ord2ymd n) = n.
Proof.
  intros Hn. rewrite ord2ymd_unfold. cbv zeta.
  set (n0 := n - 1).
  set (n400 := n0 / DI400Y). set (r400 := n0 mod DI400Y).
  set (n100 := r400 / DI100Y). set (r100 := r400 mod DI100Y).
  set (n4 := r100 / DI4Y). set (r4 := r100 mod DI4Y).
  set (n1 := r4 / 365). set (r1 := r4 mod 365).
  assert (E400 : n0 = DI400Y * n400 + r400 /\ 0 <= r400 < DI400Y).
  { subst n400 r400. unfold DI400Y. Z.div_mod_to_equations. lia. }
  assert (E100 : r400 = DI100Y * n100 + r100 /\ 0 <= r100 < DI100Y).
  { subst n100 r100. unfold DI100Y. Z.div_mod_to_equations. lia. }
  assert (E4 : r100 = DI4Y * n4 + r4 /\ 0 <= r4 < DI4Y).
  { subst n4 r4. unfold DI4Y. Z.div_mod_to_equations. lia. }
  assert (E1 : r4 = 365 * n1 + r1 /\ 0 <= r1 < 365).
  { subst n1 r1. Z.div_mod_to_equations. lia. }
  clearbody n400 r400 n100 r100 n4 r4 n1 r1.
  unfold MAXORDINAL, DI400Y, DI100Y, DI4Y in *. subst n0.
  destruct E400 as [E400 B400], E100 as [E100 B100], E4 as [E4 B4],
    E1 as [E1 B1].
  assert (0 <= n400 <= 24) by lia.
  assert (0 <= n100 <= 4) by lia.
  assert (0 <= n4 <= 24) by lia.
  assert (0 <= n1 <= 4) by lia.
  destruct (Z.eqb_spec n100 4) as [Hc|Hc].
  - (* the last day of a 400-year cycle *)
    rewrite orb_true_r.
    assert (r100 = 0) by lia. assert (n4 = 0) by lia.
    assert (n1 = 0) by lia. assert (r1 = 0) by lia. subst.
    replace (n400 * 400 + 1 + 4 * 100 + 0 * 4 + 0 - 1)
      with (400 * n400 + 100 * 3 + 4 * 24 + 3 + 1) by lia.
    unfold valid_date, ymd2ord, days_in_month, days_before_month.
    cbn [year month day].
    rewrite is_leap_split, days_before_year_split by lia.
    cbn. unfold MINYEAR, MAXYEAR, DI400Y, DI100Y, DI4Y. lia.
  - destruct (Z.eqb_spec n1 4) as [Hy4|Hy4].
    + (* the last day of a leap year *)
      cbn [orb].
      assert (r1 = 0) by lia. assert (n4 <= 23) by lia. subst n1 r1.
      replace (n400 * 400 + 1 + n100 * 100 + n4 * 4 + 4 - 1)
        with (400 * n400 + 100 * n100 + 4 * n4 + 3 + 1) by lia.
      unfold valid_date, ymd2ord, days_in_month, days_before_month.
      cbn [year month day].
      rewrite is_leap_split, days_before_year_split by lia.
      replace (n4 =? 24) with false by (symmetry; apply Z.eqb_neq; lia).
      cbn. unfold MINYEAR, MAXYEAR, DI400Y, DI100Y, DI4Y. lia.
    + cbn [orb].
      replace (n400 * 400 + 1 + n100 * 100 + n4 * 4 + n1)
        with (400 * n400 + 100 * n100 + 4 * n4 + n1 + 1) by lia.
      set (leapyear := (n1 =? 3) && (negb (n4 =? 24) || (n100 =? 3))).
      pose proof (month_day_spec (400 * n400 + 100 * n100 + 4 * n4 + n1 + 1)
                    leapyear r1 B1) as Hmd.
      cbv zeta in Hmd. destruct Hmd as (Hy & Hm & Hd & Hsum).
      unfold valid_date, ymd2ord, days_in_month, days_before_month.
      rewrite Hy, is_leap_split, days_before_year_split by lia.
      fold leapyear. unfold MINYEAR, MAXYEAR, DI400Y, DI100Y, DI4Y.
      repeat split; try lia.
      clearbody leapyear.
      destruct (Z.eqb_spec (month (month_day (400 * n400 + 100 * n100
                                              + 4 * n4 + n1 + 1) leapyear r1)) 2)
        as [E|E]; cbn [andb] in *; [|lia].
      rewrite E in Hd |- *. cbn [DAYS_IN_MONTH] in Hd |- *.
      destruct leapyear; lia.
Qed.

Lemma days_before_year_step (y : Z) :
  days_before_year (y + 1)
  = days_before_year y + 365 + (if is_leap y then 1 else 0).
Proof.
  unfold days_before_year, is_leap.
  repeat match goal with
         | |- context [?a mod ?b =? 0] => destruct (Z.eqb_spec (a mod b) 0)
         end;
    cbn [andb orb negb]; Z.div_mod_to_equations; lia.
Qed.

Lemma days_before_year_mono (y1 y2 : Z) :
  y1 <= y2 -> days_before_year y1 <= days_before_year y2.
Proof. unfold days_before_year. intros H. Z.div_mod_to_equations. lia. Qed.

Lemma month_cases (m : Z) :
  1 <= m <= 12 ->
  m = 1 \/ m = 2 \/ m = 3 \/ m = 4 \/ m = 5 \/ m = 6
  \/ m = 7 \/ m = 8 \/ m = 9 \/ m = 10 \/ m = 11 \/ m = 12.
Proof. lia. Qed.

Ltac by_month H :=
  apply month_cases in H;
  destruct H as [->|[->|[->|[->|[->|[->|[->|[->|[->|[->|[->| ->]]]]]]]]]]].

Lemma day_of_year_bounds (d : date) :
  valid_date d ->
  1 <= days_before_month (year d) (month d) + day d
    <= 365 + (if is_leap (year d) then 1 else 0).
Proof.
  destruct d as [y m dd]. unfold valid_date, days_before_month, days_in_month.
  cbn [year month day]. intros (_ & Hm & Hd). by_month Hm.
  all: cbn in *; destruct (is_leap y); lia.
Qed.

Lemma ymd2ord_bounds (d : date) :
  valid_date d -> 1 <= ymd2ord d <= MAXORDINAL.
Proof.
  intros Hv. pose proof (day_of_year_bounds d Hv) as Hb.
  destruct Hv as ((Hy1 & Hy2) & _). unfold ymd2ord, MINYEAR, MAXYEAR in *.
  pose proof (days_before_year_mono 1 (year d) Hy1) as H1.
  assert (Hnext : year d + 1 <= 10000) by lia.
  apply days_before_year_mono in Hnext.
  rewrite days_before_year_step in Hnext.
  change (days_before_year 1) with 0 in H1.
  change (days_before_year 10000) with 3652059 in Hnext.
  unfold MAXORDINAL. lia.
Qed.

Lemma ymd2ord_year_lt (d1 d2 : date) :
  valid_date d1 -> valid_date d2 -> year d1 < year d2 ->
  ymd2ord d1 < ymd2ord d2.
Proof.
  intros H1 H2 Hlt.
  pose proof (day_of_year_bounds d1 H1). pose proof (day_of_year_bounds d2 H2).
  assert (Hle : year d1 + 1 <= year d2) by lia.
  apply days_before_year_mono in Hle. rewrite days_before_year_step in Hle.
  unfold ymd2ord. lia.
Qed.

Lemma day_of_year_inj (y m1 d1 m2 d2 : Z) :
  1 <= m1 <= 12 -> 1 <= m2 <= 12 ->
  1 <= d1 <= days_in_month y m1 -> 1 <= d2 <= days_in_month y m2 ->
  days_before_month y m1 + d1 = days_before_month y m2 + d2 ->
  m1 = m2 /\ d1 = d2.
Proof.
  unfold days_before_month, days_in_month. intros Hm1 Hm2.
  by_month Hm1; by_month Hm2; cbn; destruct (is_leap y); lia.
Qed.

Lemma ymd2ord_inj (d1 d2 : date) :
  valid_date d1 -> valid_date d2 -> ymd2ord d1 = ymd2ord d2 -> d1 = d2.
Proof.
  intros H1 H2 Heq.
  assert (Hy : year d1 = year d2).
  { destruct (Z.lt_total (year d1) (year d2)) as [Hlt|[Hy|Hlt]]; [|exact Hy|].
    - pose proof (ymd2ord_year_lt d1 d2 H1 H2 Hlt). lia.
    - pose proof (ymd2ord_year_lt d2 d1 H2 H1 Hlt). lia. }
  destruct d1 as [y1 m1 dd1], d2 as [y2 m2 dd2].
  unfold valid_date, ymd2ord in *. cbn [year month day] in *. subst y2.
  destruct H1 as (_ & Hm1 & Hd1), H2 as (_ & Hm2 & Hd2).
  destruct (day_of_year_inj y1 m1 dd1 m2 dd2) as [-> ->]; auto. lia.
Qed.

(** ** Arithmetic on timestamps *)

Lemma dtime_sub_spec (t : dtime) (delta : timedelta) :
  representable (dtime_to_us t - delta) ->
  exists u, dtime_sub t delta = Ok u /\ valid_dtime u
            /\ dtime_to_us u = dtime_to_us t - delta.
Proof.
  unfold representable, dtime_sub. generalize (dtime_to_us t - delta) as us.
  intros us Hus. cbv zeta.
  set (days := us / US_PER_DAY). set (rest := us mod US_PER_DAY).
  set (seconds := rest / US_PER_SECOND). set (micro := rest mod US_PER_SECOND).
  set (h := seconds / 3600). set (rem := seconds mod 3600).
  set (mi := rem / 60). set (s := rem mod 60).
  assert (Hdays : 1 <= days <= MAXORDINAL /\ us = days * US_PER_DAY + rest
                  /\ 0 <= rest < US_PER_DAY).
  { subst days rest. unfold US_PER_DAY, MAXORDINAL in *.
    Z.div_mod_to_equations. lia. }
  assert (Hsec : rest = seconds * US_PER_SECOND + micro
                 /\ 0 <= micro < US_PER_SECOND /\ 0 <= seconds < 86400).
  { subst seconds micro. unfold US_PER_DAY, US_PER_SECOND in *.
    Z.div_mod_to_equations. lia. }
  assert (Hh : seconds = h * 3600 + rem /\ 0 <= rem < 3600 /\ 0 <= h < 24).
  { subst h rem. Z.div_mod_to_equations. lia. }
  assert (Hmi : rem = mi * 60 + s /\ 0 <= s < 60 /\ 0 <= mi < 60).
  { subst mi s. Z.div_mod_to_equations. lia. }
  clearbody days rest seconds micro h rem mi s.
  destruct Hdays as (Hd & Eus & Hrest).
  replace ((0 <? days) && (days <=? MAXORDINAL)) with true
    by (symmetry; apply andb_true_iff; split; [apply Z.ltb_lt|apply Z.leb_le]; lia).
  destruct (ord2ymd_spec days Hd) as [Hvalid Hord].
  eexists. split; [reflexivity|]. split.
  - unfold valid_dtime. cbn [dt_date hour minute second microsecond].
    split; [exact Hvalid|]. unfold US_PER_SECOND in *. lia.
  - unfold dtime_to_us. cbn [dt_date hour minute second microsecond].
    rewrite Hord. unfold US_PER_DAY, US_PER_SECOND in *. lia.
Qed.

Lemma dtime_sub_overflow (t : dtime) (delta : timedelta) :
  ~ representable (dtime_to_us t - delta) ->
  dtime_sub t delta = Raise OverflowError.
Proof.
  unfold representable, dtime_sub. generalize (dtime_to_us t - delta) as us.
  intros us Hus. cbv zeta.
  replace ((0 <? us / US_PER_DAY) && (us / US_PER_DAY <=? MAXORDINAL))
    with false; [reflexivity|].
  symmetry. apply andb_false_iff.
  destruct (Z.ltb_spec 0 (us / US_PER_DAY)); [right|now left].
  apply Z.leb_gt. unfold US_PER_DAY, MAXORDINAL in *.
  Z.div_mod_to_equations. lia.
Qed.

Lemma dtime_to_us_split (t : dtime) :
  valid_dtime t ->
  dtime_to_us t / US_PER_DAY = ymd2ord (dt_date t)
  /\ dtime_to_us t mod US_PER_DAY
     = (hour t * 3600 + minute t * 60 + second t) * US_PER_SECOND
       + microsecond t.
Proof.
  unfold valid_dtime, dtime_to_us, US_PER_DAY, US_PER_SECOND.
  intros (_ & Hh & Hm & Hs & Hu).
  generalize (ymd2ord (dt_date t)) as o. intros o.
  Z.div_mod_to_equations. lia.
Qed.

Lemma dtime_to_us_inj (t1 t2 : dtime) :
  valid_dtime t1 -> valid_dtime t2 -> dtime_to_us t1 = dtime_to_us t2 ->
  t1 = t2.
Proof.
  intros H1 H2 Heq.
  destruct (dtime_to_us_split t1 H1) as [Hd1 Hr1].
  destruct (dtime_to_us_split t2 H2) as [Hd2 Hr2].
  rewrite Heq in Hd1, Hr1. rewrite Hd2 in Hd1. rewrite Hr2 in Hr1.
  destruct H1 as (Hv1 & ? & ? & ? & ?), H2 as (Hv2 & ? & ? & ? & ?).
  apply ymd2ord_inj in Hd1; auto.
  destruct t1 as [dd1 h1 m1 s1 u1], t2 as [dd2 h2 m2 s2 u2].
  cbn [dt_date hour minute second microsecond] in *.
  unfold US_PER_SECOND in *.
  assert (h1 = h2 /\ m1 = m2 /\ s1 = s2 /\ u1 = u2) as (-> & -> & -> & ->) by lia.
  now subst.
Qed.

Lemma valid_dtime_representable (t : dtime) :
  valid_dtime t -> representable (dtime_to_us t).
Proof.
  intros Hv. pose proof (dtime_to_us_split t Hv) as [Hd _].
  destruct Hv as (Hv & _). apply ymd2ord_bounds in Hv.
  unfold representable. rewrite <- Hd in Hv.
  unfold US_PER_DAY, MAXORDINAL in *. Z.div_mod_to_equations. lia.
Qed.

Lemma dtime_sub_zero (t : dtime) : valid_dtime t -> dtime_sub t 0 = Ok t.
Proof.
  intros Hv.
  destruct (dtime_sub_spec t 0) as (u & Hu & Hvu & Hus).
  - rewrite Z.sub_0_r. now apply valid_dtime_representable.
  - rewrite Hu. f_equal. apply dtime_to_us_inj; auto. lia.
Qed.

(** ** Date stamps *)

Lemma digit_code (n : Z) :
  0 <= n <= 9 -> Z.of_nat (nat_of_ascii (digit n)) = 48 + n.
Proof.
  intros Hn. unfold digit. rewrite nat_ascii_embedding; lia.
Qed.

Lemma digit_is_digit (n : Z) : 0 <= n <= 9 -> is_digit (digit n) = true.
Proof.
  intros Hn. pose proof (digit_code n Hn) as Hc. unfold is_digit.
  apply andb_true_iff. split; apply Nat.leb_le; lia.
Qed.

Lemma days_in_month_le_31 (y m : Z) : days_in_month y m <= 31.
Proof.
  unfold days_in_month. destruct ((m =? 2) && is_leap y); [lia|].
  unfold DAYS_IN_MONTH.
  repeat match goal with
         | |- context [match ?x with _ => _ end] => destruct x
         end; lia.
Qed.

Lemma str_length_app (s t : string) :
  String.length (s +:+ t) = (String.length s + String.length t)%nat.
Proof.
  induction s as [|c s IH]; str_norm; [reflexivity|].
  cbn [String.length]. now rewrite IH.
Qed.

Lemma all_digits_app (s t : string) :
  all_digits (s +:+ t) = all_digits s && all_digits t.
Proof.
  induction s as [|c s IH]; str_norm; [reflexivity|].
  cbn [all_digits]. now rewrite IH, andb_assoc.
Qed.

Lemma decimal_from_app (acc : Z) (s t : string) :
  decimal_from acc (s +:+ t) = decimal_from (decimal_from acc s) t.
Proof.
  revert acc. induction s as [|c s IH]; intros acc; str_norm; [reflexivity|].
  cbn [decimal_from]. now rewrite IH.
Qed.

Lemma pad2_spec (n : Z) :
  0 <= n <= 99 ->
  all_digits (pad2 n) = true
  /\ forall acc, decimal_from acc (pad2 n) = acc * 100 + n.
Proof.
  intros Hn.
  assert (D1 : 0 <= n / 10 <= 9) by (Z.div_mod_to_equations; lia).
  assert (D2 : 0 <= n mod 10 <= 9) by (Z.div_mod_to_equations; lia).
  unfold pad2. split.
  - cbn [all_digits]. now rewrite !digit_is_digit.
  - intros acc. cbn [decimal_from]. rewrite !digit_code by assumption.
    Z.div_mod_to_equations. lia.
Qed.

Lemma format_Y_pad4 (y : Z) : 1000 <= y -> format_Y y = pad4 y.
Proof.
  intros Hy. unfold format_Y.
  destruct (Z.ltb_spec y 10); [lia|]. destruct (Z.ltb_spec y 100); [lia|].
  destruct (Z.ltb_spec y 1000); [lia | reflexivity].
Qed.

Lemma year_width_4 (y : Z) : 1000 <= y -> year_width y = 4%nat.
Proof.
  intros Hy. unfold year_width.
  destruct (Z.ltb_spec y 10); [lia|]. destruct (Z.ltb_spec y 100); [lia|].
  destruct (Z.ltb_spec y 1000); [lia | reflexivity].
Qed.

Lemma year_width_lt_4 (y : Z) : y < 1000 -> (year_width y < 4)%nat.
Proof.
  intros Hy. unfold year_width.
  destruct (Z.ltb_spec y 10); [lia|]. destruct (Z.ltb_spec y 100); [lia|].
  destruct (Z.ltb_spec y 1000); lia.
Qed.

Lemma format_Y_spec (y : Z) :
  0 <= y <= 9999 ->
  String.length (format_Y y) = year_width y
  /\ all_digits (format_Y y) = true
  /\ decimal_value (format_Y y) = y.
Proof.
  intros Hy. unfold format_Y, year_width, decimal_value.
  destruct (Z.ltb_spec y 10) as [H1|H1];
    [|destruct (Z.ltb_spec y 100) as [H2|H2];
      [|destruct (Z.ltb_spec y 1000) as [H3|H3]]].
  - split; [reflexivity|]. cbn [all_digits decimal_from].
    rewrite digit_is_digit, digit_code by lia. split; [reflexivity | lia].
  - destruct (pad2_spec y) as (Ha & Hd); [lia|].
    split; [reflexivity|]. split; [exact Ha|]. rewrite Hd. lia.
  - assert (D1 : 0 <= y / 100 <= 9) by (Z.div_mod_to_equations; lia).
    destruct (pad2_spec (y mod 100)) as (Ha & Hd);
      [Z.div_mod_to_equations; lia|].
    split; [reflexivity|]. cbn [all_digits decimal_from].
    rewrite digit_is_digit, digit_code, Ha, Hd by assumption.
    split; [reflexivity|]. Z.div_mod_to_equations. lia.
  - assert (D1 : 0 <= y / 1000 <= 9) by (Z.div_mod_to_equations; lia).
    assert (D2 : 0 <= y / 100 mod 10 <= 9) by (Z.div_mod_to_equations; lia).
    assert (D3 : 0 <= y / 10 mod 10 <= 9) by (Z.div_mod_to_equations; lia).
    assert (D4 : 0 <= y mod 10 <= 9) by (Z.div_mod_to_equations; lia).
    unfold pad4. split; [reflexivity|]. cbn [all_digits decimal_from].
    rewrite !digit_is_digit, !digit_code by assumption.
    split; [reflexivity|]. Z.div_mod_to_equations. lia.
Qed.

Lemma strftime_Ymd_spec (d : date) :
  valid_date d ->
  String.length (strftime_Ymd d) = (year_width (year d) + 4)%nat
  /\ all_digits (strftime_Ymd d) = true
  /\ decimal_value (strftime_Ymd d) = year d * 10000 + month d * 100 + day d.
Proof.
  intros ((Hy1 & Hy2) & Hm & Hd1 & Hd2).
  pose proof (days_in_month_le_31 (year d) (month d)) as H31.
  unfold MINYEAR, MAXYEAR in *.
  destruct (format_Y_spec (year d)) as (Yl & Ya & Yd); [lia|].
  destruct (pad2_spec (month d)) as (Ma & Md); [lia|].
  destruct (pad2_spec (day d)) as (Da & Dd); [lia|].
  unfold strftime_Ymd, decimal_value in *.
  rewrite !str_length_app, !all_digits_app, !decimal_from_app.
  rewrite Yl, Ya, Ma, Da, Yd, Md, Dd.
  split; [reflexivity|]. split; [reflexivity | lia].
Qed.

Lemma strftime_Ymd_length_8 (d : date) :
  valid_date d -> 1000 <= year d -> String.length (strftime_Ymd d) = 8%nat.
Proof.
  intros Hv Hy. destruct (strftime_Ymd_spec d Hv) as (-> & _).
  now rewrite year_width_4.
Qed.

(** ** Records that are formatted without a fault *)

Lemma is_text_escape (v : pyval) :
  is_text v = true -> exists r, _escape v = Ok r.
Proof.
  unfold _escape. destruct v as [|s|n|d|t tz]; cbn; intros H;
    try discriminate.
  - eauto.
  - destruct (negb (String.eqb s "")); eauto.
  - destruct (negb (n =? 0)); [discriminate | eauto].
Qed.

Lemma start_lines (e : env) (now : string) (ev : event) (n : nat)
  (s : string) (is_date : bool) :
  text_fields_ok ev ->
  truthy (get ev "start" VNone) = true ->
  format_dt e (get ev "start" VNone) = Ok (s, is_date) ->
  exists rest,
    lines (step_out e now ev n)
    = [ "BEGIN:VEVENT"; "UID:" +:+ resolved_uid e ev n; "DTSTAMP:" +:+ now;
        (if is_date then "DTSTART;VALUE=DATE:" else "DTSTART:") +:+ s ] ++ rest.
Proof.
  intros (H1 & H2 & H3) Ht Hf.
  apply is_text_escape in H1 as [r1 H1], H2 as [r2 H2], H3 as [r3 H3].
  unfold resolved_uid, supplied_uid. unfold_step.
  rewrite H1, H2, H3, Ht, Hf. cbn [negb].
  destruct is_date; case_step; eexists; reflexivity.
Qed.

(** ** Identifiers *)

Lemma uid_lines_app (a b : list string) :
  uid_lines (a ++ b) = uid_lines a ++ uid_lines b.
Proof. apply omap_app. Qed.

Lemma supplied_uids_cons (ev : event) (events : list event) :
  supplied_uids (ev :: events)
  = match supplied_uid ev with
    | Some u => u :: supplied_uids events
    | None => supplied_uids events
    end.
Proof. reflexivity. Qed.

Lemma step_out_calls_uid (e : env) (now : string) (ev : event) (n : nat) :
  uuid_calls (step_out e now ev n)
  = match supplied_uid ev with
    | Some _ => n
    | None => S n
    end.
Proof.
  rewrite step_out_calls. unfold supplied_uid.
  now destruct (truthy (get ev "uid" VNone)).
Qed.

Lemma step_out_block (e : env) (now : string) (ev : event) (n : nat) :
  lines (step_out e now ev n) = []
  \/ exists rest,
       lines (step_out e now ev n)
       = ["BEGIN:VEVENT"; "UID:" +:+ resolved_uid e ev n] ++ rest
       /\ ("BEGIN:VEVENT" ∉ rest) /\ uid_lines rest = [].
Proof.
  unfold resolved_uid, supplied_uid. unfold_step. case_step.
  all: try (left; reflexivity).
  all: right; eexists; split; [reflexivity|]; split; [|reflexivity].
  all: repeat (apply not_elem_of_cons; split; [discriminate|]).
  all: apply not_elem_of_nil.
Qed.

Lemma loop_uids_origin (e : env) (now : string) (events : list event) :
  forall (n : nat) (u : string),
    u ∈ uid_lines (lines (loop_out e now events n)) ->
    u ∈ supplied_uids events \/ exists k : nat, (n <= k)%nat /\ u = uuid4 e k.
Proof.
  induction events as [|ev events IH]; intros n u Hu.
  - rewrite loop_out_nil in Hu. cbn in Hu. now apply elem_of_nil in Hu.
  - rewrite loop_out_cons in Hu. cbn [lines] in Hu.
    rewrite uid_lines_app, elem_of_app in Hu.
    rewrite supplied_uids_cons. rewrite step_out_calls_uid in Hu.
    destruct Hu as [Hu|Hu].
    + destruct (step_out_uid e now ev n) as [E|E]; rewrite E in Hu.
      * now apply elem_of_nil in Hu.
      * apply list_elem_of_singleton in Hu. subst u. unfold resolved_uid.
        destruct (supplied_uid ev) as [u|].
        -- left. apply elem_of_cons. now left.
        -- right. exists n. split; [lia | reflexivity].
    + apply IH in Hu as [Hu|(k & Hk & ->)].
      * left. destruct (supplied_uid ev); [apply elem_of_cons; now right | exact Hu].
      * right. exists k. split; [|reflexivity].
        destruct (supplied_uid ev); lia.
Qed.

Lemma loop_uids_nodup (e : env) (now : string) (events : list event) :
  (forall i j : nat, uuid4 e i = uuid4 e j -> i = j) ->
  NoDup (supplied_uids events) ->
  (forall (u : string) (k : nat), u ∈ supplied_uids events -> u <> uuid4 e k) ->
  forall n : nat, NoDup (uid_lines (lines (loop_out e now events n))).
Proof.
  intros Hinj. induction events as [|ev events IH]; intros Hnd Hfresh n.
  - rewrite loop_out_nil. constructor.
  - rewrite loop_out_cons. cbn [lines]. rewrite uid_lines_app.
    rewrite step_out_calls_uid. rewrite supplied_uids_cons in Hnd, Hfresh.
    assert (Hrest : forall m, NoDup (uid_lines (lines (loop_out e now events m)))).
    { apply IH.
      - destruct (supplied_uid ev); [now apply NoDup_cons in Hnd | exact Hnd].
      - intros u k Hu. apply Hfresh.
        destruct (supplied_uid ev); [apply elem_of_cons; now right | exact Hu]. }
    destruct (step_out_uid e now ev n) as [E|E]; rewrite E; [apply Hrest|].
    cbn [app]. apply NoDup_cons. split; [|apply Hrest].
    intros Hin. apply loop_uids_origin in Hin. unfold resolved_uid in Hin.
    destruct (supplied_uid ev) as [u|].
    + apply NoDup_cons in Hnd as [Hnotin _].
      destruct Hin as [Hin|(k & _ & Hk)]; [contradiction|].
      apply (Hfresh u k); [apply elem_of_cons; now left | exact Hk].
    + destruct Hin as [Hin|(k & Hk & Heq)].
      * now apply (Hfresh (uuid4 e n) n).
      * apply Hinj in Heq. lia.
Qed.

Lemma sample_uuid_inj (i j : nat) : sample_uuid i = sample_uuid j -> i = j.
Proof.
  unfold sample_uuid. intros H.
  repeat (rewrite !str_app_cons in H; injection H as H).
  rewrite !str_app_nil_l in H.
  assert (Hint : Some (Z.to_int (100000000000 + Z.of_nat i))
                 = Some (Z.to_int (100000000000 + Z.of_nat j))).
  { rewrite <- !NilEmpty.isi. now rewrite H. }
  injection Hint as Hint. apply DecimalZ.to_int_inj in Hint. lia.
Qed.

Lemma sample_uuid_head (k : nat) :
  exists rest, sample_uuid k = String "0" rest.
Proof. unfold sample_uuid. eexists. reflexivity. Qed.

(** ** Records without a start *)

Lemma escape_ok_is_text (v : pyval) (r : string) :
  _escape v = Ok r -> is_text v = true.
Proof.
  unfold _escape, is_text. destruct v as [|s|n|d|t tz]; cbn; try reflexivity;
    try discriminate.
  destruct (negb (n =? 0)); [discriminate | reflexivity].
Qed.

Lemma get_absent (ev : event) (key : string) (dflt : pyval) :
  ev !! key = None -> get ev key dflt = dflt.
Proof. unfold get. now intros ->. Qed.

Lemma no_start_out (e : env) (now : string) (ev : event) (n : nat) :
  ev !! "start" = None ->
  lines (step_out e now ev n) = []
  /\ exists entry,
       log (step_out e now ev n) = [entry]
       /\ (text_fields_ok ev ->
           exists summary,
             _escape (get ev "summary" (VStr "No title")) = Ok summary
             /\ entry = LogWarning summary)
       /\ (~ text_fields_ok ev ->
           exists ex, entry = LogException (ev !! "summary") ex).
Proof.
  intros Hs. apply (get_absent ev "start" VNone) in Hs.
  unfold text_fields_ok. unfold_step. rewrite Hs. cbn [truthy negb].
  case_step.
  all: split; [reflexivity|]; eexists; split; [reflexivity|]; split.
  all: try (intros _; eexists; split; reflexivity).
  all: try (intros (H1 & H2 & H3);
            apply is_text_escape in H1 as [? H1], H2 as [? H2], H3 as [? H3];
            congruence).
  all: try (intros _; eexists; reflexivity).
  all: intros Hn; exfalso; apply Hn; repeat split;
    eapply escape_ok_is_text; eassumption.
Qed.

(** ** Where a record's lines are in the document *)

Lemma lines_of_record (e : env) (before after : list event) (ev : event) :
  exists (n : nat) (pre post : list string),
    build_ics_lines e (before ++ ev :: after)
    = pre ++ lines (step_out e (strftime_YmdTHMSZ (utcnow e)) ev n) ++ post.
Proof.
  set (now := strftime_YmdTHMSZ (utcnow e)).
  set (n := uuid_calls (loop_out e now before 0)).
  exists n, (HEADER ++ lines (loop_out e now before 0)),
    (lines (loop_out e now after (uuid_calls (step_out e now ev n)))
     ++ [FOOTER]).
  rewrite build_ics_lines_eq, loop_out_app. cbv zeta. cbn [lines].
  rewrite loop_out_cons. cbv zeta. cbn [lines].
  fold now. fold n. now rewrite <- !app_assoc.
Qed.

Lemma start_line_in_document (e : env) (before after : list event) (ev : event)
  (s : string) (is_date : bool) :
  text_fields_ok ev ->
  truthy (get ev "start" VNone) = true ->
  format_dt e (get ev "start" VNone) = Ok (s, is_date) ->
  exists (pre : list string) (uid : string) (post : list string),
    build_ics_lines e (before ++ ev :: after)
    = pre
      ++ [ "BEGIN:VEVENT"; "UID:" +:+ uid;
           "DTSTAMP:" +:+ strftime_YmdTHMSZ (utcnow e);
           (if is_date then "DTSTART;VALUE=DATE:" else "DTSTART:") +:+ s ]
      ++ post.
Proof.
  intros Hok Ht Hf.
  destruct (lines_of_record e before after ev) as (n & pre & post & ->).
  destruct (start_lines e (strftime_YmdTHMSZ (utcnow e)) ev n s is_date
              Hok Ht Hf) as (rest & ->).
  exists pre, (resolved_uid e ev n), (rest ++ post).
  now rewrite <- !app_assoc.
Qed.

Lemma get_present (ev : event) (key : string) (dflt v : pyval) :
  ev !! key = Some v -> get ev key dflt = v.
Proof. unfold get. now intros ->. Qed.

Lemma for_each_app {A} (a b : list A) (body : A -> M unit) :
  forall s : state,
    for_each (a ++ b) body s
    = match for_each a body s with
      | (Ok _, s') => for_each b body s'
      | (Raise ex, s') => (Raise ex, s')
      end.
Proof.
  induction a as [|x a IH]; intros s; [reflexivity|].
  rewrite <- app_comm_cons, !for_each_cons.
  destruct (body x s) as [[[]|ex] s']; [apply IH | reflexivity].
Qed.

Lemma format_dt_aware_overflow (e : env) (t : dtime) (off : timedelta) :
  ~ representable (instant t off) ->
  format_dt e (VDateTime t (Some off)) = Raise OverflowError.
Proof.
  intros H. cbn. now rewrite dtime_sub_overflow.
Qed.

(** * The properties of the serializer *)

(** ** Text escaping *)

(** C3. For every string, [_escape] returns the string in which backslash
    was replaced by two backslashes first, then newline by backslash-n,
    comma by backslash-comma and semicolon by backslash-semicolon; this
    is the string in which each of the four characters is replaced by its
    escape sequence, and unescaping it gives the original string back. *)
Theorem escape_roundtrip (s : string) :
  exists r : string,
    _escape (VStr s) = Ok r
    /\ r = str_replace ";" "\;"
             (str_replace "," "\,"
                (str_replace (String LF EmptyString) "\n"
                   (str_replace "\" "\\" s)))
    /\ r = escape_chars s
    /\ unescape r = s.
Proof.
  exists (escape_str s). split; [apply _escape_text|].
  split; [reflexivity|]. split; [apply escape_str_chars|].
  rewrite escape_str_chars. apply unescape_escape_chars.
Qed.

(** C10. For every input string, what [_escape] returns holds no raw
    newline character; so in every document of [build_ics] the lines read
    back from the CRLF-joined text are the lines of the entries of
    [lines], one after the other, and each SUMMARY, LOCATION and
    DESCRIPTION entry is exactly one line. *)
Theorem escaped_text_single_line :
  (forall s : string,
     exists r : string, _escape (VStr s) = Ok r /\ has_char LF r = false)
  /\ (forall (e : env) (events : list event),
        build_ics e events = Ok (str_join CRLF (build_ics_lines e events))
        /\ split_crlf (str_join CRLF (build_ics_lines e events))
           = concat (map split_crlf (build_ics_lines e events))
        /\ Forall (fun l => is_text_line l = true ->
                            has_char LF l = false /\ split_crlf l = [l])
             (build_ics_lines e events)).
Proof.
  split.
  - intros s. exists (escape_str s). split; [apply _escape_text|].
    rewrite escape_str_chars. apply escape_chars_no_LF.
  - intros e events. split; [apply build_ics_eq|]. split.
    + apply split_crlf_join. rewrite build_ics_lines_eq. discriminate.
    + rewrite build_ics_lines_eq.
      assert (Hone : forall ls,
                 Forall (fun l => is_text_line l = true -> has_char LF l = false) ls ->
                 Forall (fun l => is_text_line l = true ->
                                  has_char LF l = false /\ split_crlf l = [l]) ls).
      { intros ls H. eapply Forall_impl; [exact H|]. intros l Hl Ht.
        split; [auto | apply split_crlf_no_LF; auto]. }
      apply Hone. apply Forall_app. split; [|apply Forall_app; split].
      * unfold HEADER. repeat (constructor; [discriminate|]). constructor.
      * apply loop_out_text.
      * repeat (constructor; [discriminate|]). constructor.
Qed.

(** ** The frame of the document *)

(** C4. For every sequence of events, the empty one included, the lines
    of the document are the five header lines in their order, then the
    lines of the events, then one END:VCALENDAR line, which no line of
    the events equals; the document is these lines joined with CRLF, so
    it starts with the header text and ends with CRLF and the footer. *)
Theorem document_framing (e : env) (events : list event) :
  exists body : list string,
    build_ics_lines e events
    = [ "BEGIN:VCALENDAR"; "VERSION:2.0"; "CALSCALE:GREGORIAN";
        "METHOD:PUBLISH"; "PRODID:-//Hull Events & Cinema//EN" ]
      ++ body ++ ["END:VCALENDAR"]
    /\ ("END:VCALENDAR" ∉ body)
    /\ build_ics e events = Ok (str_join CRLF (build_ics_lines e events))
    /\ (exists rest : string,
          str_join CRLF (build_ics_lines e events)
          = "BEGIN:VCALENDAR" +:+ CRLF +:+ "VERSION:2.0" +:+ CRLF
            +:+ "CALSCALE:GREGORIAN" +:+ CRLF +:+ "METHOD:PUBLISH" +:+ CRLF
            +:+ "PRODID:-//Hull Events & Cinema//EN" +:+ CRLF +:+ rest)
    /\ (exists front : string,
          str_join CRLF (build_ics_lines e events)
          = front +:+ CRLF +:+ "END:VCALENDAR").
Proof.
  exists (lines (loop_out e (strftime_YmdTHMSZ (utcnow e)) events 0)).
  split; [apply build_ics_lines_eq|].
  split; [apply (loop_out_footer e _ events 0)|].
  split; [apply build_ics_eq|]. rewrite build_ics_lines_eq. split.
  - eexists. rewrite str_join_app; [|discriminate|].
    + unfold HEADER. cbn [str_join]. rewrite !str_app_assoc. reflexivity.
    + now destruct (lines _).
  - eexists. rewrite app_assoc, str_join_app; [|discriminate|discriminate].
    reflexivity.
Qed.

(** ** Faults *)


(** C2. A record whose [end] cannot be formatted raises after its first
    lines were appended: on the record with uid [a], an all-day start and
    the text [tomorrow] as end, the body raises [AttributeError], and the
    document keeps the BEGIN:VEVENT, UID, DTSTAMP and DTSTART lines of
    the record, without END:VEVENT; it is not the document of the input
    without that record. *)
Theorem faulting_end_leaves_partial_block :
  fst (event_body env_utc "20250115T090000Z" ev_bad_end (mkstate HEADER [] 0))
  = Raise AttributeError
  /\ build_ics_lines env_utc [ev_bad_end]
     = HEADER
       ++ [ "BEGIN:VEVENT"; "UID:a"; "DTSTAMP:20250115T090000Z";
            "DTSTART;VALUE=DATE:20240101" ]
       ++ [FOOTER]
  /\ build_ics_log env_utc [ev_bad_end]
     = [LogException (Some (VStr "X")) AttributeError]
  /\ build_ics env_utc [ev_bad_end] <> build_ics env_utc [].
Proof.
  split; [vm_compute; reflexivity|]. split; [vm_compute; reflexivity|].
  split; [vm_compute; reflexivity|].
  vm_compute. intros H. discriminate H.
Qed.

(** ** Dropped records and the count of blocks *)

(** C7, as stated, fails: the record [{"summary": 5}] has no start, and
    [build_ics] logs for it one exception and no warning. *)
Lemma no_start_int_summary_logs_no_warning :
  ev_no_start_int_summary !! "start" = None
  /\ build_ics_log env_utc [ev_no_start_int_summary]
     = [LogException (Some (VInt 5)) AttributeError]
  /\ length (List.filter is_warning
               (build_ics_log env_utc [ev_no_start_int_summary])) <> 1%nat.
Proof.
  split; [vm_compute; reflexivity|]. split; [vm_compute; reflexivity|].
  vm_compute. discriminate.
Qed.

(** C7, amended. A record with no start adds no line to the document and
    exactly one entry to the log: a warning with the escaped summary when
    its summary, location and description are text or falsy, and the
    logged exception otherwise. For every sequence of events the number
    of complete blocks (END:VEVENT lines) is the number of records minus
    the number of log entries, one per dropped record. *)
Theorem no_start_dropped_and_counted (e : env) :
  (forall (now : string) (ev : event) (s : state),
     ev !! "start" = None ->
     let s' := snd (event_step e now ev s) in
     lines s' = lines s
     /\ exists entry : log_entry,
          log s' = log s ++ [entry]
          /\ (text_fields_ok ev ->
              exists summary : string,
                _escape (get ev "summary" (VStr "No title")) = Ok summary
                /\ entry = LogWarning summary)
          /\ (~ text_fields_ok ev ->
              exists ex : exn, entry = LogException (ev !! "summary") ex))
  /\ (forall events : list event,
        count_blocks (build_ics_lines e events)
        = (length events - length (build_ics_log e events))%nat
        /\ (length (build_ics_log e events) <= length events)%nat).
Proof.
  split.
  - intros now ev s Hs. cbv zeta. rewrite event_step_frame. cbn [snd lines log].
    destruct (no_start_out e now ev (uuid_calls s) Hs) as (Hl & entry & Hg & Hw & Hx).
    rewrite Hl, Hg, app_nil_r. split; [reflexivity|].
    exists entry. auto.
  - intros events. rewrite build_ics_lines_eq, build_ics_log_eq.
    rewrite !count_blocks_app.
    pose proof (loop_out_count e (strftime_YmdTHMSZ (utcnow e)) events 0) as H.
    change (count_blocks HEADER) with 0%nat.
    change (count_blocks [FOOTER]) with 0%nat. lia.
Qed.

(** ** The local time zone of a naive timestamp *)

Lemma local_inv (e : env) (u w : Z) :
  local e u = Ok w ->
  w = u + tz_gmtoff e u /\ 86400 <= w < (MAXORDINAL + 1) * 86400.
Proof.
  unfold local. cbv zeta.
  destruct (Z.leb_spec 86400 (u + tz_gmtoff e u));
    destruct (Z.ltb_spec (u + tz_gmtoff e u) ((MAXORDINAL + 1) * 86400));
    cbn [andb]; intros Hq; try discriminate Hq.
  injection Hq as <-. lia.
Qed.

Lemma local_raise_inv (e : env) (u : Z) (ex : exn) :
  local e u = Raise ex ->
  ex = ValueError
  /\ ~ 86400 <= u + tz_gmtoff e u < (MAXORDINAL + 1) * 86400.
Proof.
  unfold local. cbv zeta.
  destruct (Z.leb_spec 86400 (u + tz_gmtoff e u));
    destruct (Z.ltb_spec (u + tz_gmtoff e u) ((MAXORDINAL + 1) * 86400));
    cbn [andb]; intros Hq; try discriminate Hq;
    injection Hq as <-; (split; [reflexivity | lia]).
Qed.

(** One probe of the search, by cases on its outcome. *)
Ltac probe e p :=
  let w := fresh "w" in
  let ex := fresh "ex" in
  let E := fresh "E" in
  pose proof (tz_bounded e p);
  destruct (local e p) as [w|ex] eqn:E;
  [ apply local_inv in E; destruct E as [E ?]
  | apply local_raise_inv in E; destruct E as [E ?] ].

Ltac probes e :=
  repeat match goal with
         | |- context [local e ?p] => probe e p
         | |- context [Z.eqb ?a ?b] => destruct (Z.eqb_spec a b)
         end.

Lemma local_to_seconds_raises (e : env) (t : dtime) (fold : bool) (ex : exn) :
  local_to_seconds e t fold = Raise ex -> ex = ValueError.
Proof.
  unfold local_to_seconds, local_to_seconds_end. cbv zeta.
  destruct fold; probes e; intros Hq; try discriminate Hq;
    injection Hq as <-; assumption.
Qed.

(** Away from the ends of the calendar every probe succeeds, and the
    instant found is less than a day from the wall clock reading. *)
Lemma local_to_seconds_safe (e : env) (t : dtime) (fold : bool) :
  4 * 86400 <= utc_to_seconds t < (MAXORDINAL - 2) * 86400 ->
  exists u, local_to_seconds e t fold = Ok u
            /\ - 86400 < utc_to_seconds t - u < 86400.
Proof.
  intros HT. unfold local_to_seconds, local_to_seconds_end. cbv zeta.
  unfold MAX_FOLD_SECONDS, MAXORDINAL in *.
  generalize dependent (utc_to_seconds t). intros T HT.
  destruct fold; probes e; subst; unfold MAXORDINAL in *;
    try (exfalso; lia);
    (eexists; split; [reflexivity | lia]).
Qed.

Lemma utc_to_seconds_us (t : dtime) :
  dtime_to_us t = utc_to_seconds t * US_PER_SECOND + microsecond t.
Proof. unfold dtime_to_us, utc_to_seconds. ring. Qed.

Lemma utc_to_seconds_range (t : dtime) :
  valid_dtime t ->
  ymd2ord (dt_date t) * 86400 <= utc_to_seconds t
  < (ymd2ord (dt_date t) + 1) * 86400.
Proof.
  intros (_ & Hh & Hm & Hs & _). unfold utc_to_seconds. lia.
Qed.

Lemma local_timezone_from_local_eq (e : env) (t : dtime) :
  local_timezone_from_local e t
  = match local_to_seconds e t (naive_fold e t) with
    | Ok u => Ok (tz_gmtoff e u * US_PER_SECOND)
    | Raise ex => Raise ex
    end.
Proof.
  unfold local_timezone_from_local.
  destruct (local_to_seconds e t (naive_fold e t)) as [u|ex]; [|reflexivity].
  cbv zeta. pose proof (tz_bounded e u) as [H1 H2].
  apply Z.ltb_lt in H1, H2. now rewrite H1, H2.
Qed.

Lemma local_timezone_from_local_ok (e : env) (t : dtime) (off : timedelta) :
  local_timezone_from_local e t = Ok off ->
  off = local_gmtoff e t * US_PER_SECOND
  /\ - US_PER_DAY < off < US_PER_DAY.
Proof.
  rewrite local_timezone_from_local_eq. unfold local_gmtoff.
  destruct (local_to_seconds e t (naive_fold e t)) as [u|ex];
    intros H; [|discriminate H].
  injection H as <-. split; [reflexivity|].
  pose proof (tz_bounded e u). unfold US_PER_DAY, US_PER_SECOND. lia.
Qed.

Lemma local_timezone_from_local_raises (e : env) (t : dtime) (ex : exn) :
  local_timezone_from_local e t = Raise ex -> ex = ValueError.
Proof.
  rewrite local_timezone_from_local_eq.
  destruct (local_to_seconds e t (naive_fold e t)) as [u|ex'] eqn:E;
    intros H; [discriminate H|].
  injection H as <-. now apply local_to_seconds_raises in E.
Qed.

Lemma local_gmtoff_bounded (e : env) (t : dtime) :
  - 86400 < local_gmtoff e t < 86400.
Proof.
  unfold local_gmtoff.
  destruct (local_to_seconds e t (naive_fold e t)); [apply tz_bounded | lia].
Qed.

(** ** [format_dt] on timestamps *)

Lemma format_dt_naive (e : env) (t : dtime) :
  format_dt e (VDateTime t None)
  = match local_timezone_from_local e t with
    | Ok off =>
        match dtime_sub t off with
        | Ok u => Ok (strftime_YmdTHMSZ u, false)
        | Raise ex => Raise ex
        end
    | Raise ex => Raise ex
    end.
Proof.
  cbn. now destruct (local_timezone_from_local e t).
Qed.

Lemma format_dt_aware (e : env) (t : dtime) (off : timedelta) :
  format_dt e (VDateTime t (Some off))
  = match dtime_sub t off with
    | Ok u => Ok (strftime_YmdTHMSZ u, false)
    | Raise ex => Raise ex
    end.
Proof. reflexivity. Qed.

Lemma representable_dec (us : Z) : representable us \/ ~ representable us.
Proof. unfold representable. lia. Qed.

Lemma dtime_sub_ok_inv (t u : dtime) (delta : timedelta) :
  dtime_sub t delta = Ok u ->
  valid_dtime u /\ dtime_to_us u = dtime_to_us t - delta.
Proof.
  intros H. destruct (representable_dec (dtime_to_us t - delta)) as [Hr|Hr].
  - destruct (dtime_sub_spec t delta Hr) as (u' & Hu & Hv & Hus).
    rewrite Hu in H. injection H as <-. auto.
  - rewrite dtime_sub_overflow in H by exact Hr. discriminate H.
Qed.

Lemma dtime_sub_raise_inv (t : dtime) (delta : timedelta) (ex : exn) :
  dtime_sub t delta = Raise ex ->
  ex = OverflowError /\ ~ representable (dtime_to_us t - delta).
Proof.
  intros H. destruct (representable_dec (dtime_to_us t - delta)) as [Hr|Hr].
  - destruct (dtime_sub_spec t delta Hr) as (u' & Hu & _).
    rewrite Hu in H. discriminate H.
  - rewrite dtime_sub_overflow in H by exact Hr. injection H as <-. auto.
Qed.

Lemma format_dt_timestamp_ok (e : env) (t : dtime) (tz : option timedelta)
  (s : string) (b : bool) :
  format_dt e (VDateTime t tz) = Ok (s, b) ->
  b = false
  /\ exists u : dtime,
       valid_dtime u /\ instant u 0 = instant t (utcoffset_of e t tz)
       /\ s = strftime_YmdTHMSZ u.
Proof.
  destruct tz as [off|].
  - rewrite format_dt_aware. destruct (dtime_sub t off) as [u|ex] eqn:E;
      intros H; [|discriminate H].
    injection H as <- <-. apply dtime_sub_ok_inv in E as [Hv Hus].
    split; [reflexivity|]. exists u. unfold instant, utcoffset_of.
    split; [exact Hv|]. split; [lia | reflexivity].
  - rewrite format_dt_naive.
    destruct (local_timezone_from_local e t) as [off|ex] eqn:El;
      [|intros H; discriminate H].
    apply local_timezone_from_local_ok in El as [-> _].
    destruct (dtime_sub t _) as [u|ex] eqn:E; intros H; [|discriminate H].
    injection H as <- <-. apply dtime_sub_ok_inv in E as [Hv Hus].
    split; [reflexivity|]. exists u. unfold instant, utcoffset_of.
    split; [exact Hv|]. split; [lia | reflexivity].
Qed.

Lemma format_dt_naive_ok (e : env) (t : dtime) (s : string) (b : bool) :
  format_dt e (VDateTime t None) = Ok (s, b) ->
  b = false
  /\ exists u : dtime,
       valid_dtime u
       /\ instant u 0 = instant t (local_gmtoff e t * US_PER_SECOND)
       /\ s = strftime_YmdTHMSZ u.
Proof.
  rewrite format_dt_naive.
  destruct (local_timezone_from_local e t) as [off|ex] eqn:El;
    [|intros H; discriminate H].
  apply local_timezone_from_local_ok in El as [-> _].
  destruct (dtime_sub t _) as [u|ex] eqn:E; intros H; [|discriminate H].
  injection H as <- <-. apply dtime_sub_ok_inv in E as [Hv Hus].
  split; [reflexivity|]. exists u. unfold instant.
  split; [exact Hv|]. split; [lia | reflexivity].
Qed.

Lemma format_dt_timestamp_raises (e : env) (t : dtime) (tz : option timedelta)
  (ex : exn) :
  format_dt e (VDateTime t tz) = Raise ex ->
  ex = ValueError \/ ex = OverflowError.
Proof.
  destruct tz as [off|].
  - rewrite format_dt_aware. destruct (dtime_sub t off) as [u|ex'] eqn:E;
      intros H; [discriminate H|].
    injection H as <-. apply dtime_sub_raise_inv in E as [-> _]. now right.
  - rewrite format_dt_naive.
    destruct (local_timezone_from_local e t) as [off|ex'] eqn:El.
    + destruct (dtime_sub t off) as [u|ex''] eqn:E; intros H;
        [discriminate H|].
      injection H as <-. apply dtime_sub_raise_inv in E as [-> _]. now right.
    + intros H. injection H as <-.
      apply local_timezone_from_local_raises in El. now left.
Qed.

(** A naive timestamp at least four days inside the calendar is always
    formatted. *)
Lemma format_dt_naive_safe (e : env) (t : dtime) :
  valid_dtime t ->
  4 <= ymd2ord (dt_date t) <= MAXORDINAL - 3 ->
  exists u : dtime,
    valid_dtime u
    /\ instant u 0 = instant t (local_gmtoff e t * US_PER_SECOND)
    /\ format_dt e (VDateTime t None) = Ok (strftime_YmdTHMSZ u, false).
Proof.
  intros Hv Hord. pose proof (utc_to_seconds_range t Hv) as HT.
  destruct (local_to_seconds_safe e t (naive_fold e t)) as (u0 & E0 & Hu0);
    [unfold MAXORDINAL in *; lia|].
  rewrite format_dt_naive, local_timezone_from_local_eq.
  unfold local_gmtoff. rewrite E0.
  pose proof (tz_bounded e u0) as Hb.
  destruct (dtime_sub_spec t (tz_gmtoff e u0 * US_PER_SECOND))
    as (u & -> & Hvu & Hus).
  - unfold representable. rewrite utc_to_seconds_us.
    destruct Hv as (_ & _ & _ & _ & Hmic).
    unfold US_PER_DAY, US_PER_SECOND, MAXORDINAL in *. lia.
  - exists u. unfold instant. split; [exact Hvu|]. split; [lia | reflexivity].
Qed.

(** ** Reading a stamp back *)

Lemma is_digit_not_LF (c : ascii) : is_digit c = true -> Ascii.eqb LF c = false.
Proof.
  intros H. apply Ascii.eqb_neq. intros <-. discriminate H.
Qed.

Lemma all_digits_no_LF (s : string) :
  all_digits s = true -> has_char LF s = false.
Proof.
  induction s as [|c s IH]; [reflexivity|]. cbn [all_digits has_char].
  intros H. apply andb_true_iff in H as [Hc Hs].
  now rewrite (is_digit_not_LF c Hc), IH.
Qed.

Lemma digits_prefix_unique (D1 D2 R1 R2 : string) (c1 c2 : ascii) :
  all_digits D1 = true -> all_digits D2 = true ->
  is_digit c1 = false -> is_digit c2 = false ->
  D1 +:+ String c1 R1 = D2 +:+ String c2 R2 ->
  D1 = D2 /\ R1 = R2.
Proof.
  revert D2. induction D1 as [|a D1 IH]; intros [|b D2]; str_norm;
    cbn [all_digits]; intros H1 H2 Hc1 Hc2 Heq.
  - injection Heq as _ ->. auto.
  - injection Heq as -> _. apply andb_true_iff in H2 as [H2 _]. congruence.
  - injection Heq as -> _. apply andb_true_iff in H1 as [H1 _]. congruence.
  - injection Heq as -> Heq.
    apply andb_true_iff in H1 as [_ H1], H2 as [_ H2].
    destruct (IH D2 H1 H2 Hc1 Hc2 Heq) as [-> ->]. auto.
Qed.

Lemma strftime_YmdTHMSZ_parts (t : dtime) :
  strftime_YmdTHMSZ t
  = strftime_Ymd (dt_date t) +:+ String "T" (strftime_HMS t +:+ "Z").
Proof. reflexivity. Qed.

Lemma strftime_HMS_spec (t : dtime) :
  valid_dtime t ->
  String.length (strftime_HMS t) = 6%nat
  /\ all_digits (strftime_HMS t) = true
  /\ decimal_value (strftime_HMS t)
     = hour t * 10000 + minute t * 100 + second t.
Proof.
  intros (_ & Hh & Hm & Hs & _).
  destruct (pad2_spec (hour t)) as (Ha1 & Hd1); [lia|].
  destruct (pad2_spec (minute t)) as (Ha2 & Hd2); [lia|].
  destruct (pad2_spec (second t)) as (Ha3 & Hd3); [lia|].
  unfold strftime_HMS, decimal_value.
  rewrite !all_digits_app, !decimal_from_app, Ha1, Ha2, Ha3, Hd1, Hd2, Hd3.
  split; [reflexivity|]. split; [reflexivity | lia].
Qed.

Lemma strftime_YmdTHMSZ_length (t : dtime) :
  valid_dtime t ->
  String.length (strftime_YmdTHMSZ t)
  = (year_width (year (dt_date t)) + 12)%nat.
Proof.
  intros Hv. destruct (strftime_Ymd_spec _ (proj1 Hv)) as (Hl & _).
  destruct (strftime_HMS_spec t Hv) as (Hl' & _).
  rewrite strftime_YmdTHMSZ_parts, str_length_app. cbn [String.length].
  rewrite str_length_app, Hl, Hl'. cbn [String.length]. lia.
Qed.

Lemma date_fields_eq (d1 d2 : date) :
  year d1 = year d2 -> month d1 = month d2 -> day d1 = day d2 -> d1 = d2.
Proof. destruct d1, d2. cbn. congruence. Qed.

Lemma strftime_fields (u1 u2 : dtime) :
  valid_dtime u1 -> valid_dtime u2 ->
  strftime_YmdTHMSZ u1 = strftime_YmdTHMSZ u2 ->
  dt_date u1 = dt_date u2 /\ hour u1 = hour u2 /\ minute u1 = minute u2
  /\ second u1 = second u2.
Proof.
  intros Hv1 Hv2 Heq.
  pose proof (strftime_Ymd_spec _ (proj1 Hv1)) as (_ & Ha1 & Hd1).
  pose proof (strftime_Ymd_spec _ (proj1 Hv2)) as (_ & Ha2 & Hd2).
  pose proof (strftime_HMS_spec u1 Hv1) as (_ & Hb1 & Ht1).
  pose proof (strftime_HMS_spec u2 Hv2) as (_ & Hb2 & Ht2).
  rewrite !strftime_YmdTHMSZ_parts in Heq.
  apply digits_prefix_unique in Heq as [Ed Et];
    [|assumption|assumption|reflexivity|reflexivity].
  apply digits_prefix_unique in Et as [Et _];
    [|assumption|assumption|reflexivity|reflexivity].
  rewrite Ed in Hd1. rewrite Et in Ht1. clear Ed Et Ha1 Ha2 Hb1 Hb2.
  destruct Hv1 as ((_ & Hm1 & Hdd1 & Hdd1') & Hh1 & Hmi1 & Hs1 & _).
  destruct Hv2 as ((_ & Hm2 & Hdd2 & Hdd2') & Hh2 & Hmi2 & Hs2 & _).
  pose proof (days_in_month_le_31 (year (dt_date u1)) (month (dt_date u1))).
  pose proof (days_in_month_le_31 (year (dt_date u2)) (month (dt_date u2))).
  split; [apply date_fields_eq; lia | lia].
Qed.

Lemma same_second_same_stamp (u1 u2 : dtime) :
  valid_dtime u1 -> valid_dtime u2 ->
  dtime_to_us u1 / US_PER_SECOND = dtime_to_us u2 / US_PER_SECOND ->
  strftime_YmdTHMSZ u1 = strftime_YmdTHMSZ u2.
Proof.
  intros Hv1 Hv2 Heq.
  set (z1 := mkdtime (dt_date u1) (hour u1) (minute u1) (second u1) 0).
  set (z2 := mkdtime (dt_date u2) (hour u2) (minute u2) (second u2) 0).
  assert (Hz : z1 = z2).
  { apply dtime_to_us_inj.
    - destruct Hv1 as (? & ? & ? & ? & ?). unfold valid_dtime, US_PER_SECOND.
      subst z1. cbn [dt_date hour minute second microsecond].
      split; [assumption | lia].
    - destruct Hv2 as (? & ? & ? & ? & ?). unfold valid_dtime, US_PER_SECOND.
      subst z2. cbn [dt_date hour minute second microsecond].
      split; [assumption | lia].
    - destruct Hv1 as (_ & _ & _ & _ & Hu1), Hv2 as (_ & _ & _ & _ & Hu2).
      subst z1 z2. unfold dtime_to_us, US_PER_SECOND in *.
      cbn [dt_date hour minute second microsecond]. revert Heq.
      generalize (ymd2ord (dt_date u1) * 86400 + hour u1 * 3600
                  + minute u1 * 60 + second u1).
      generalize (ymd2ord (dt_date u2) * 86400 + hour u2 * 3600
                  + minute u2 * 60 + second u2).
      intros a c Heq. Z.div_mod_to_equations. lia. }
  change (strftime_YmdTHMSZ u1) with (strftime_YmdTHMSZ z1).
  change (strftime_YmdTHMSZ u2) with (strftime_YmdTHMSZ z2).
  now rewrite Hz.
Qed.

(** Two valid timestamps with one stamp are in the same second. *)
Lemma same_stamp_same_second (u1 u2 : dtime) :
  valid_dtime u1 -> valid_dtime u2 ->
  strftime_YmdTHMSZ u1 = strftime_YmdTHMSZ u2 ->
  dtime_to_us u1 / US_PER_SECOND = dtime_to_us u2 / US_PER_SECOND.
Proof.
  intros Hv1 Hv2 H.
  destruct (strftime_fields u1 u2 Hv1 Hv2 H) as (Hd & Hh & Hm & Hs).
  destruct Hv1 as (_ & _ & _ & _ & Hus1), Hv2 as (_ & _ & _ & _ & Hus2).
  unfold dtime_to_us, US_PER_SECOND in *. rewrite Hd, Hh, Hm, Hs.
  generalize (ymd2ord (dt_date u2) * 86400 + hour u2 * 3600
              + minute u2 * 60 + second u2).
  intros a. Z.div_mod_to_equations. lia.
Qed.

Lemma offset_of_same_second (t u : dtime) (off : Z) :
  dtime_to_us u / US_PER_SECOND = dtime_to_us t / US_PER_SECOND ->
  instant u 0 = instant t (off * US_PER_SECOND) -> off = 0.
Proof.
  unfold instant. generalize (dtime_to_us u) as a.
  generalize (dtime_to_us t) as c. unfold US_PER_SECOND.
  intros c a H1 H2. Z.div_mod_to_equations. lia.
Qed.

Lemma same_instant_zero_offset (t u : dtime) :
  instant u 0 = instant t (0 * US_PER_SECOND) ->
  dtime_to_us t = dtime_to_us u.
Proof.
  unfold instant. generalize (dtime_to_us u) as a.
  generalize (dtime_to_us t) as c. unfold US_PER_SECOND. intros c a H. lia.
Qed.

Lemma Ok_stamp_inj (s1 s2 : string) (b1 b2 : bool) :
  @Ok (string * bool) (s1, b1) = Ok (s2, b2) -> s1 = s2.
Proof. intros H. now injection H. Qed.

(** ** Identifiers of the blocks *)

(** C9, as stated, fails: two records that both bring the uid [a] give two
    blocks with the identifier [a]. *)
Lemma repeated_uid_is_emitted_twice :
  uid_lines (build_ics_lines env_utc [ev_uid_a; ev_uid_a]) = ["a"; "a"]
  /\ ~ NoDup (uid_lines (build_ics_lines env_utc [ev_uid_a; ev_uid_a])).
Proof.
  assert (H : uid_lines (build_ics_lines env_utc [ev_uid_a; ev_uid_a])
              = ["a"; "a"]) by (vm_compute; reflexivity).
  split; [exact H|]. rewrite H. intros Hnd.
  apply NoDup_cons in Hnd as [Hnotin _]. apply Hnotin.
  apply elem_of_cons. now left.
Qed.

(** C9, amended. Every block that is begun carries, right after its
    first line, the identifier of its record: the uid the record brings,
    or a generated one when the uid is absent or falsy. The identifiers
    of a document are pairwise distinct when the generator does not
    repeat itself, the uids the records bring are pairwise distinct, and
    none of them is a generated identifier; in particular when no record
    brings a uid. *)
Theorem identifiers_distinct (e : env) (events : list event) :
  (forall i j : nat, uuid4 e i = uuid4 e j -> i = j) ->
  NoDup (supplied_uids events) ->
  (forall (u : string) (k : nat), u ∈ supplied_uids events -> u <> uuid4 e k) ->
  NoDup (uid_lines (build_ics_lines e events))
  /\ (forall (now : string) (ev : event) (n : nat),
        lines (step_out e now ev n) = []
        \/ exists rest : list string,
             lines (step_out e now ev n)
             = ["BEGIN:VEVENT"; "UID:" +:+ resolved_uid e ev n] ++ rest
             /\ ("BEGIN:VEVENT" ∉ rest) /\ uid_lines rest = []).
Proof.
  intros Hinj Hnd Hfresh. split; [|intros; apply step_out_block].
  rewrite build_ics_lines_eq, !uid_lines_app.
  change (uid_lines HEADER) with (@nil string).
  change (uid_lines [FOOTER]) with (@nil string).
  rewrite app_nil_r. cbn [app]. now apply loop_uids_nodup.
Qed.

Lemma identifiers_distinct_witness :
  (forall i j : nat, uuid4 env_utc i = uuid4 env_utc j -> i = j)
  /\ NoDup (supplied_uids [ev_uid_a; ev_all_day; ev_no_start; ev_all_day])
  /\ (forall (u : string) (k : nat),
        u ∈ supplied_uids [ev_uid_a; ev_all_day; ev_no_start; ev_all_day] ->
        u <> uuid4 env_utc k)
  /\ NoDup (uid_lines (build_ics_lines env_utc
                         [ev_uid_a; ev_all_day; ev_no_start; ev_all_day])).
Proof.
  assert (Hs : supplied_uids [ev_uid_a; ev_all_day; ev_no_start; ev_all_day]
               = ["a"]) by (vm_compute; reflexivity).
  assert (H1 : forall i j : nat, uuid4 env_utc i = uuid4 env_utc j -> i = j)
    by exact sample_uuid_inj.
  assert (H2 : NoDup (supplied_uids
                        [ev_uid_a; ev_all_day; ev_no_start; ev_all_day])).
  { rewrite Hs. apply NoDup_singleton. }
  assert (H3 : forall (u : string) (k : nat),
             u ∈ supplied_uids [ev_uid_a; ev_all_day; ev_no_start; ev_all_day] ->
             u <> uuid4 env_utc k).
  { rewrite Hs. intros u k Hu. apply list_elem_of_singleton in Hu. subst u.
    destruct (sample_uuid_head k) as [rest Hk]. cbn [uuid4 env_utc].
    rewrite Hk. discriminate. }
  split; [exact H1|]. split; [exact H2|]. split; [exact H3|].
  exact (proj1 (identifiers_distinct env_utc _ H1 H2 H3)).
Defined.

(** ** Start fields *)

(** C5 fails on a date before the year 1000. [strftime] prints [%Y]
    without leading zeros there, so the record whose start is the date
    2 January 999 gets the stamp 9990102 and the line
    DTSTART;VALUE=DATE:9990102: seven digits, not the eight of
    YYYYMMDD. *)
Theorem date_stamp_below_year_1000 :
  valid_date date_999
  /\ format_dt env_utc (VDate date_999) = Ok ("9990102", true)
  /\ String.length "9990102" = 7%nat
  /\ build_ics_lines env_utc [ev_date_999]
     = HEADER
       ++ [ "BEGIN:VEVENT"; "UID:a"; "DTSTAMP:20250115T090000Z";
            "DTSTART;VALUE=DATE:9990102"; "SUMMARY:X"; "END:VEVENT";
            FOOTER ].
Proof.
  split; [unfold valid_date; vm_compute; intuition discriminate|].
  split; [vm_compute; reflexivity|]. split; [reflexivity|].
  vm_compute. reflexivity.
Qed.

(** X19. For every record whose summary, location and description are
    text or falsy and whose start is a date, [format_dt] returns the
    [strftime] stamp of the date and marks it date-only, and the block
    of the record in the document has, after its BEGIN:VEVENT, UID and
    DTSTAMP lines, the line DTSTART;VALUE=DATE: followed by the stamp.
    The stamp is made of decimal digits that read year, month and day;
    it has the eight digits of YYYYMMDD when the year is 1000 or later,
    and fewer before. *)
Theorem date_start_line_stamp (e : env) (before after : list event)
  (ev : event) (d : date) :
  ev !! "start" = Some (VDate d) ->
  valid_date d ->
  text_fields_ok ev ->
  format_dt e (VDate d) = Ok (strftime_Ymd d, true)
  /\ (exists (pre : list string) (uid : string) (post : list string),
        build_ics_lines e (before ++ ev :: after)
        = pre
          ++ [ "BEGIN:VEVENT"; "UID:" +:+ uid;
               "DTSTAMP:" +:+ strftime_YmdTHMSZ (utcnow e);
               "DTSTART;VALUE=DATE:" +:+ strftime_Ymd d ]
          ++ post)
  /\ all_digits (strftime_Ymd d) = true
  /\ decimal_value (strftime_Ymd d) = year d * 10000 + month d * 100 + day d
  /\ (1000 <= year d -> String.length (strftime_Ymd d) = 8%nat)
  /\ (year d < 1000 -> (String.length (strftime_Ymd d) < 8)%nat).
Proof.
  intros Hs Hv Hok. split; [reflexivity|]. split.
  - apply (get_present ev "start" VNone) in Hs.
    apply (start_line_in_document e before after ev (strftime_Ymd d) true Hok).
    + now rewrite Hs.
    + now rewrite Hs.
  - destruct (strftime_Ymd_spec d Hv) as (Hl & Ha & Hd).
    split; [exact Ha|]. split; [exact Hd|]. rewrite Hl. split.
    + intros Hy. now rewrite year_width_4.
    + intros Hy. pose proof (year_width_lt_4 (year d) Hy). lia.
Qed.

Lemma date_start_line_stamp_witness :
  ev_all_day !! "start" = Some (VDate (mkdate 2024 12 25))
  /\ valid_date (mkdate 2024 12 25)
  /\ text_fields_ok ev_all_day
  /\ (exists (pre : list string) (uid : string) (post : list string),
        build_ics_lines env_utc ([ev_no_start] ++ ev_all_day :: [ev_uid_a])
        = pre
          ++ [ "BEGIN:VEVENT"; "UID:" +:+ uid;
               "DTSTAMP:" +:+ strftime_YmdTHMSZ (utcnow env_utc);
               "DTSTART;VALUE=DATE:" +:+ strftime_Ymd (mkdate 2024 12 25) ]
          ++ post)
  /\ String.length (strftime_Ymd (mkdate 2024 12 25)) = 8%nat.
Proof.
  assert (H1 : ev_all_day !! "start" = Some (VDate (mkdate 2024 12 25)))
    by (vm_compute; reflexivity).
  assert (H2 : valid_date (mkdate 2024 12 25))
    by (unfold valid_date; vm_compute; intuition discriminate).
  assert (H3 : text_fields_ok ev_all_day)
    by (repeat split; vm_compute; reflexivity).
  split; [exact H1|]. split; [exact H2|]. split; [exact H3|].
  destruct (date_start_line_stamp env_utc [ev_no_start] [ev_uid_a]
              ev_all_day (mkdate 2024 12 25) H1 H2 H3)
    as (_ & Hb & _ & _ & Hl & _).
  split; [exact Hb|]. apply Hl. cbn [year]. lia.
Defined.

(** ** Timestamps *)

(** C6 fails on a timestamp whose UTC year is below 1000. [strftime]
    prints [%Y] without leading zeros there, so the aware timestamp
    0999-06-01 12:00:00+00:00 gets the stamp 9990601T120000Z and the
    line DTSTART:9990601T120000Z: 15 characters, not the 16 of
    YYYYMMDDTHHMMSSZ. *)
Theorem aware_stamp_below_year_1000 :
  valid_dtime noon_999
  /\ format_dt env_utc (VDateTime noon_999 (Some 0))
     = Ok ("9990601T120000Z", false)
  /\ String.length "9990601T120000Z" = 15%nat
  /\ build_ics_lines env_utc [ev_noon_999]
     = HEADER
       ++ [ "BEGIN:VEVENT"; "UID:a"; "DTSTAMP:20250115T090000Z";
            "DTSTART:9990601T120000Z"; "SUMMARY:X"; "END:VEVENT";
            FOOTER ].
Proof.
  split; [unfold valid_dtime, valid_date; vm_compute; intuition discriminate|].
  split; [vm_compute; reflexivity|]. split; [reflexivity|].
  vm_compute. reflexivity.
Qed.

(** X20. For a timestamp that carries a UTC offset, when the instant it
    denotes is one a [datetime] can hold, [format_dt] returns the
    [strftime] stamp of the one valid UTC timestamp that denotes the same
    instant, and marks it as not date-only; a record with text fields
    that are text or falsy and this start has the line DTSTART: followed
    by that stamp in its block. The stamp has the 16 characters of
    YYYYMMDDTHHMMSSZ when the UTC year is 1000 or later, and fewer
    before. *)
Theorem aware_timestamp_utc (e : env) (t : dtime) (off : timedelta) :
  representable (instant t off) ->
  exists u : dtime,
    valid_dtime u
    /\ instant u 0 = instant t off
    /\ (forall u' : dtime,
          valid_dtime u' -> instant u' 0 = instant t off -> u' = u)
    /\ format_dt e (VDateTime t (Some off)) = Ok (strftime_YmdTHMSZ u, false)
    /\ (forall (before after : list event) (ev : event),
          ev !! "start" = Some (VDateTime t (Some off)) ->
          text_fields_ok ev ->
          exists (pre : list string) (uid : string) (post : list string),
            build_ics_lines e (before ++ ev :: after)
            = pre
              ++ [ "BEGIN:VEVENT"; "UID:" +:+ uid;
                   "DTSTAMP:" +:+ strftime_YmdTHMSZ (utcnow e);
                   "DTSTART:" +:+ strftime_YmdTHMSZ u ]
              ++ post)
    /\ (1000 <= year (dt_date u) ->
        String.length (strftime_YmdTHMSZ u) = 16%nat)
    /\ (year (dt_date u) < 1000 ->
        (String.length (strftime_YmdTHMSZ u) < 16)%nat).
Proof.
  intros Hrep. destruct (dtime_sub_spec t off Hrep) as (u & Hsub & Hv & Hus).
  assert (Hf : format_dt e (VDateTime t (Some off))
               = Ok (strftime_YmdTHMSZ u, false)).
  { rewrite format_dt_aware. now rewrite Hsub. }
  exists u. split; [exact Hv|]. unfold instant in *.
  split; [lia|]. split; [|split; [exact Hf|split; [|split]]].
  - intros u' Hv' Hu'. apply dtime_to_us_inj; auto. lia.
  - intros before after ev Hs Hok.
    apply (get_present ev "start" VNone) in Hs.
    apply (start_line_in_document e before after ev
             (strftime_YmdTHMSZ u) false Hok).
    + now rewrite Hs.
    + now rewrite Hs.
  - intros Hy. rewrite strftime_YmdTHMSZ_length by exact Hv.
    now rewrite year_width_4.
  - intros Hy. rewrite strftime_YmdTHMSZ_length by exact Hv.
    pose proof (year_width_lt_4 _ Hy). lia.
Qed.

Lemma aware_timestamp_utc_witness :
  representable (instant noon_1_june (3600 * US_PER_SECOND))
  /\ exists u : dtime,
       valid_dtime u
       /\ instant u 0 = instant noon_1_june (3600 * US_PER_SECOND)
       /\ format_dt env_utc
            (VDateTime noon_1_june (Some (3600 * US_PER_SECOND)))
          = Ok (strftime_YmdTHMSZ u, false).
Proof.
  assert (H : representable (instant noon_1_june (3600 * US_PER_SECOND))).
  { vm_compute. split; [intros H; discriminate H | reflexivity]. }
  split; [exact H|].
  destruct (aware_timestamp_utc env_utc noon_1_june (3600 * US_PER_SECOND) H)
    as (u & Hv & Hi & _ & Hf & _).
  exists u. auto.
Defined.


Lemma own_fields_iff_offset_zero (t u : dtime) (off : Z) :
  valid_dtime t -> valid_dtime u ->
  instant u 0 = instant t (off * US_PER_SECOND) ->
  strftime_YmdTHMSZ u = strftime_YmdTHMSZ t <-> off = 0.
Proof.
  intros Hv Hvu Hi. split.
  - intros Heq.
    exact (offset_of_same_second t u off
             (same_stamp_same_second u t Hvu Hv Heq) Hi).
  - intros H0. rewrite H0 in Hi.
    rewrite (dtime_to_us_inj t u Hv Hvu (same_instant_zero_offset t u Hi)).
    reflexivity.
Qed.



(** * More properties *)

(** ** Escaped text *)

Lemma escape_chars_app (s t : string) :
  escape_chars (s ++ t) = (escape_chars s ++ escape_chars t)%string.
Proof.
  induction s as [|c s IH]; [reflexivity|].
  str_norm. cbn [escape_chars]. now rewrite IH, str_app_assoc.
Qed.

Lemma escape_char_length (c : ascii) :
  String.length (escape_char c) = ((if is_special c then 1 else 0) + 1)%nat.
Proof.
  unfold is_special.
  destruct (escape_char_cases c) as [->|[->|[->|[->|(E1 & E2 & E3 & E4 & Ec)]]]];
    try reflexivity.
  rewrite Ec, !(Ascii.eqb_sym c), E1, E2, E3, E4. reflexivity.
Qed.

Lemma escape_chars_length (s : string) :
  String.length (escape_chars s) = (String.length s + count_special s)%nat.
Proof.
  induction s as [|c s IH]; [reflexivity|].
  cbn [escape_chars count_special String.length].
  rewrite str_length_app, escape_char_length, IH. lia.
Qed.

Lemma escape_chars_plain (s : string) :
  count_special s = 0%nat -> escape_chars s = s.
Proof.
  induction s as [|c s IH]; [reflexivity|].
  cbn [count_special escape_chars]. intros H.
  destruct (is_special c) eqn:Hc; [discriminate|].
  rewrite IH by exact H.
  unfold is_special in Hc. apply orb_false_elim in Hc as [Hc E4].
  apply orb_false_elim in Hc as [Hc E3]. apply orb_false_elim in Hc as [E1 E2].
  unfold escape_char. now rewrite E1, E2, E3, E4.
Qed.

Lemma well_escaped_from_escape_chars (s : string) :
  well_escaped_from (escape_chars s) false = true.
Proof.
  induction s as [|c s IH]; [reflexivity|].
  cbn [escape_chars].
  destruct (escape_char_cases c) as [->|[->|[->|[->|(E1 & E2 & E3 & E4 & Ec)]]]].
  - cbn. str_norm. cbn. exact IH.
  - cbn. str_norm. cbn. exact IH.
  - cbn. str_norm. cbn. exact IH.
  - cbn. str_norm. cbn. exact IH.
  - rewrite Ec. str_norm. cbn [well_escaped_from].
    rewrite !(Ascii.eqb_sym c), E1, E2, E3, E4. exact IH.
Qed.

(** X1. Escaping goes through concatenation: the escaped form of two
    texts put together is the escaped form of the first followed by the
    escaped form of the second. *)
Theorem escape_concat (s t : string) :
  exists rs rt : string,
    _escape (VStr s) = Ok rs /\ _escape (VStr t) = Ok rt
    /\ _escape (VStr (s ++ t)) = Ok (rs ++ rt)%string.
Proof.
  exists (escape_str s), (escape_str t). rewrite !_escape_text.
  split; [reflexivity|]. split; [reflexivity|].
  now rewrite !escape_str_chars, escape_chars_app.
Qed.

(** X2. The escaped text is longer than the text by one character for
    each backslash, newline, comma and semicolon in it: never shorter,
    and at most twice as long. *)
Theorem escape_length (s : string) :
  exists r : string,
    _escape (VStr s) = Ok r
    /\ String.length r = (String.length s + count_special s)%nat
    /\ (String.length s <= String.length r <= 2 * String.length s)%nat.
Proof.
  exists (escape_str s). split; [apply _escape_text|].
  rewrite escape_str_chars, escape_chars_length. split; [reflexivity|].
  assert (count_special s <= String.length s)%nat; [|lia].
  induction s as [|c s IH]; [reflexivity|].
  cbn [count_special String.length]. destruct (is_special c); lia.
Qed.

(** X3. [_escape] returns a text as it is exactly when the text holds
    no backslash, newline, comma or semicolon. *)
Theorem escape_unchanged_iff (s : string) :
  _escape (VStr s) = Ok s <-> count_special s = 0%nat.
Proof.
  rewrite _escape_text, escape_str_chars. split.
  - intros H. injection H as H.
    apply (f_equal String.length) in H. rewrite escape_chars_length in H. lia.
  - intros H. now rewrite escape_chars_plain.
Qed.

(** X4. What [_escape] returns for a text is well-formed escaped text:
    every backslash in it is followed by a backslash, an [n], a comma
    or a semicolon, and no newline, comma or semicolon stands outside
    such a pair. *)
Theorem escape_well_formed (s : string) :
  exists r : string, _escape (VStr s) = Ok r /\ well_escaped r = true.
Proof.
  exists (escape_str s). split; [apply _escape_text|].
  rewrite escape_str_chars. apply well_escaped_from_escape_chars.
Qed.
(** ** Stamps of timestamps *)

(** X5. Whenever [format_dt] returns for a timestamp, naive or aware, the
    result is marked as not date-only and is the stamp of a valid UTC
    timestamp that denotes the instant of the input: decimal digits that
    read its year, month and day, a T, six digits that read its hour,
    minute and second, and a Z. The date part has the digits of the year
    and four more; the stamp has the 16 characters of YYYYMMDDTHHMMSSZ
    when that year is 1000 or later, and fewer before. *)
Theorem timestamp_stamp_shape (e : env) (t : dtime) (tz : option timedelta)
  (s : string) (b : bool) :
  format_dt e (VDateTime t tz) = Ok (s, b) ->
  b = false
  /\ exists (u : dtime) (D H : string),
       valid_dtime u
       /\ instant u 0 = instant t (utcoffset_of e t tz)
       /\ s = D +:+ "T" +:+ H +:+ "Z"
       /\ all_digits D = true
       /\ all_digits H = true
       /\ String.length D = (year_width (year (dt_date u)) + 4)%nat
       /\ String.length H = 6%nat
       /\ decimal_value D
          = year (dt_date u) * 10000 + month (dt_date u) * 100 + day (dt_date u)
       /\ decimal_value H = hour u * 10000 + minute u * 100 + second u
       /\ (1000 <= year (dt_date u) -> String.length s = 16%nat)
       /\ (year (dt_date u) < 1000 -> (String.length s < 16)%nat).
Proof.
  intros Hf. apply format_dt_timestamp_ok in Hf as (-> & u & Hv & Hi & ->).
  pose proof (strftime_Ymd_spec (dt_date u) (proj1 Hv)) as (Hd0 & Hd1 & Hd2).
  pose proof (strftime_HMS_spec u Hv) as (Ht0 & Ht1 & Ht2).
  split; [reflexivity|].
  exists u, (strftime_Ymd (dt_date u)), (strftime_HMS u).
  split; [exact Hv|]. split; [exact Hi|]. split; [reflexivity|].
  split; [exact Hd1|]. split; [exact Ht1|]. split; [exact Hd0|].
  split; [exact Ht0|]. split; [exact Hd2|]. split; [exact Ht2|].
  rewrite strftime_YmdTHMSZ_length by exact Hv. split.
  - intros Hy. now rewrite year_width_4.
  - intros Hy. pose proof (year_width_lt_4 _ Hy). lia.
Qed.

Lemma timestamp_stamp_shape_witness :
  format_dt env_bst (VDateTime noon_1_june None)
  = Ok ("20240601T110000Z", false)
  /\ exists (u : dtime) (D H : string),
       valid_dtime u
       /\ "20240601T110000Z" = D +:+ "T" +:+ H +:+ "Z"
       /\ decimal_value H = hour u * 10000 + minute u * 100 + second u.
Proof.
  assert (H : format_dt env_bst (VDateTime noon_1_june None)
              = Ok ("20240601T110000Z", false)) by (vm_compute; reflexivity).
  split; [exact H|].
  destruct (timestamp_stamp_shape env_bst noon_1_june None _ _ H)
    as (_ & u & D & T & Hv & _ & Hs & _ & _ & _ & _ & _ & Ht & _).
  exists u, D, T. auto.
Defined.

(** X6. Two aware timestamps whose instants a [datetime] can hold get the
    same stamp from [format_dt] exactly when their instants fall in the
    same second of UTC, whatever offsets they are written with. *)
Theorem stamps_equal_iff_same_second (e : env) (t1 t2 : dtime)
  (off1 off2 : timedelta) :
  representable (instant t1 off1) -> representable (instant t2 off2) ->
  format_dt e (VDateTime t1 (Some off1)) = format_dt e (VDateTime t2 (Some off2))
  <-> instant t1 off1 / US_PER_SECOND = instant t2 off2 / US_PER_SECOND.
Proof.
  intros H1 H2. rewrite !format_dt_aware.
  destruct (dtime_sub_spec t1 off1 H1) as (u1 & -> & Hv1 & Hu1).
  destruct (dtime_sub_spec t2 off2 H2) as (u2 & -> & Hv2 & Hu2).
  unfold instant. rewrite <- Hu1, <- Hu2. split.
  - intros H. apply Ok_stamp_inj in H.
    now apply same_stamp_same_second.
  - intros H. now rewrite (same_second_same_stamp u1 u2).
Qed.

Lemma stamps_equal_iff_same_second_witness :
  representable (instant noon_1_june (3600 * US_PER_SECOND))
  /\ representable
       (instant (mkdtime (mkdate 2024 6 1) 6 0 0 250) (-5 * 3600 * US_PER_SECOND))
  /\ format_dt env_utc (VDateTime noon_1_june (Some (3600 * US_PER_SECOND)))
     = format_dt env_utc
         (VDateTime (mkdtime (mkdate 2024 6 1) 6 0 0 250)
            (Some (-5 * 3600 * US_PER_SECOND))).
Proof.
  assert (H1 : representable (instant noon_1_june (3600 * US_PER_SECOND))).
  { vm_compute. split; [intros H; discriminate H | reflexivity]. }
  assert (H2 : representable
                 (instant (mkdtime (mkdate 2024 6 1) 6 0 0 250)
                    (-5 * 3600 * US_PER_SECOND))).
  { vm_compute. split; [intros H; discriminate H | reflexivity]. }
  split; [exact H1|]. split; [exact H2|].
  apply (stamps_equal_iff_same_second env_utc _ _ _ _ H1 H2).
  vm_compute. reflexivity.
Defined.

(** ** Records that are dropped *)

Lemma is_text_match (v : pyval) :
  is_text v = match _escape v with Ok _ => true | Raise _ => false end.
Proof.
  destruct (_escape v) as [r|ex] eqn:E.
  - now apply escape_ok_is_text in E.
  - destruct (is_text v) eqn:Ht; [|reflexivity].
    apply is_text_escape in Ht as [r Hr]. congruence.
Qed.

Lemma step_out_early_fault (e : env) (now : string) (ev : event) (n : nat) :
  ~ text_fields_ok ev
  \/ (truthy (get ev "start" VNone) = true
      /\ exists ex, format_dt e (get ev "start" VNone) = Raise ex) ->
  lines (step_out e now ev n) = []
  /\ exists ex, log (step_out e now ev n) = [LogException (ev !! "summary") ex].
Proof.
  intros [Hn|(Ht & ex & Hf)].
  - unfold text_fields_ok in Hn. rewrite !is_text_match in Hn.
    unfold_step. case_step.
    all: try (split; [reflexivity | eexists; reflexivity]).
    all: exfalso; apply Hn; repeat split; reflexivity.
  - unfold_step. rewrite Ht, Hf. cbn [negb]. case_step.
    all: split; [reflexivity | eexists; reflexivity].
Qed.

(** X7. A record whose summary, location or description is not text, or
    whose start cannot be formatted, is dropped whole: the turn of the
    loop adds no line to the document and exactly one logged exception,
    and ends normally. *)
Theorem early_fault_adds_no_line (e : env) (now : string) (ev : event)
  (s : state) :
  ~ text_fields_ok ev
  \/ (truthy (get ev "start" VNone) = true
      /\ exists ex, format_dt e (get ev "start" VNone) = Raise ex) ->
  fst (event_step e now ev s) = Ok tt
  /\ lines (snd (event_step e now ev s)) = lines s
  /\ exists ex : exn,
       log (snd (event_step e now ev s))
       = log s ++ [LogException (ev !! "summary") ex].
Proof.
  intros H. rewrite event_step_frame. cbn [fst snd lines log].
  destruct (step_out_early_fault e now ev (uuid_calls s) H) as (Hl & ex & Hg).
  rewrite Hl, Hg, app_nil_r. eauto.
Qed.

Lemma early_fault_adds_no_line_witness :
  (~ text_fields_ok ev_no_start_int_summary
   \/ (truthy (get ev_no_start_int_summary "start" VNone) = true
       /\ exists ex,
            format_dt env_utc (get ev_no_start_int_summary "start" VNone)
            = Raise ex))
  /\ lines (snd (event_step env_utc "20250115T090000Z" ev_no_start_int_summary
                   (mkstate HEADER [] 0)))
     = HEADER.
Proof.
  assert (H : ~ text_fields_ok ev_no_start_int_summary
              \/ (truthy (get ev_no_start_int_summary "start" VNone) = true
                  /\ exists ex,
                       format_dt env_utc
                         (get ev_no_start_int_summary "start" VNone)
                       = Raise ex)).
  { left. intros (H & _). vm_compute in H. discriminate H. }
  split; [exact H|].
  exact (proj1 (proj2 (early_fault_adds_no_line env_utc "20250115T090000Z"
                         ev_no_start_int_summary (mkstate HEADER [] 0) H))).
Defined.

(** X8. A start that is present but falsy ([None], the empty string,
    zero) is treated like a missing one: when the text fields are text
    or falsy, the record adds no line and one warning that carries the
    escaped summary. *)
Theorem falsy_start_is_skipped (e : env) (now : string) (ev : event)
  (s : state) :
  truthy (get ev "start" VNone) = false ->
  text_fields_ok ev ->
  exists summary : string,
    _escape (get ev "summary" (VStr "No title")) = Ok summary
    /\ lines (snd (event_step e now ev s)) = lines s
    /\ log (snd (event_step e now ev s)) = log s ++ [LogWarning summary].
Proof.
  intros Ht (H1 & H2 & H3).
  apply is_text_escape in H1 as [r1 H1], H2 as [r2 H2], H3 as [r3 H3].
  exists r1. split; [exact H1|].
  rewrite event_step_frame. cbn [snd lines log].
  unfold_step. rewrite H1, H2, H3, Ht. cbn [negb].
  case_step; now rewrite app_nil_r.
Qed.

Lemma falsy_start_is_skipped_witness :
  truthy (get {[ "summary" := VStr "A, B"; "start" := VStr "" ]} "start" VNone)
  = false
  /\ text_fields_ok {[ "summary" := VStr "A, B"; "start" := VStr "" ]}
  /\ exists summary : string,
       log (snd (event_step env_utc "20250115T090000Z"
                   {[ "summary" := VStr "A, B"; "start" := VStr "" ]}
                   (mkstate HEADER [] 0)))
       = [] ++ [LogWarning summary].
Proof.
  assert (H1 : truthy (get {[ "summary" := VStr "A, B"; "start" := VStr "" ]}
                         "start" VNone) = false) by (vm_compute; reflexivity).
  assert (H2 : text_fields_ok {[ "summary" := VStr "A, B"; "start" := VStr "" ]})
    by (repeat split; vm_compute; reflexivity).
  split; [exact H1|]. split; [exact H2|].
  destruct (falsy_start_is_skipped env_utc "20250115T090000Z" _
              (mkstate HEADER [] 0) H1 H2) as (summary & _ & _ & Hg).
  exists summary. exact Hg.
Defined.

(** ** The shape of a block *)

(** X9. A complete block, one that reaches its END:VEVENT line, starts
    with BEGIN:VEVENT, ends with END:VEVENT, and holds exactly one UID,
    one DTSTAMP, one DTSTART and one SUMMARY line, at most one DTEND,
    one LOCATION and one DESCRIPTION line, six to nine lines in all; the
    record that gives it logs nothing. *)
Theorem complete_block_structure (e : env) (now : string) (ev : event)
  (n : nat) :
  count_blocks (lines (step_out e now ev n)) = 1%nat ->
  head (lines (step_out e now ev n)) = Some "BEGIN:VEVENT"
  /\ last (lines (step_out e now ev n)) = Some "END:VEVENT"
  /\ count_tag "BEGIN:VEVENT" (lines (step_out e now ev n)) = 1%nat
  /\ count_tag "UID:" (lines (step_out e now ev n)) = 1%nat
  /\ count_tag "DTSTAMP:" (lines (step_out e now ev n)) = 1%nat
  /\ count_tag "DTSTART" (lines (step_out e now ev n)) = 1%nat
  /\ count_tag "SUMMARY:" (lines (step_out e now ev n)) = 1%nat
  /\ (count_tag "DTEND" (lines (step_out e now ev n)) <= 1)%nat
  /\ (count_tag "LOCATION:" (lines (step_out e now ev n)) <= 1)%nat
  /\ (count_tag "DESCRIPTION:" (lines (step_out e now ev n)) <= 1)%nat
  /\ (6 <= length (lines (step_out e now ev n)) <= 9)%nat
  /\ log (step_out e now ev n) = [].
Proof.
  unfold_step. case_step.
  all: intros H; try discriminate H.
  all: repeat (split; [first [reflexivity | cbv; lia]|]).
  all: reflexivity.
Qed.

Lemma complete_block_structure_witness :
  count_blocks (lines (step_out env_utc "20250115T090000Z" ev_all_day 0)) = 1%nat
  /\ count_tag "UID:" (lines (step_out env_utc "20250115T090000Z" ev_all_day 0))
     = 1%nat.
Proof.
  assert (H : count_blocks
                (lines (step_out env_utc "20250115T090000Z" ev_all_day 0))
              = 1%nat) by (vm_compute; reflexivity).
  split; [exact H|].
  exact (proj1 (proj2 (proj2 (proj2
           (complete_block_structure env_utc "20250115T090000Z" ev_all_day 0 H))))).
Defined.

Ltac pick_line := repeat (first [left; reflexivity | right]); fail.

(** X10. Keys that are missing: in a complete block, a record with no
    summary key gets the line SUMMARY:No title, while a summary that is
    present but falsy gives an empty SUMMARY: line; a location, a
    description or an end that is absent or falsy gives no LOCATION,
    DESCRIPTION or DTEND line. *)
Theorem missing_keys_in_block (e : env) (now : string) (ev : event) (n : nat) :
  count_blocks (lines (step_out e now ev n)) = 1%nat ->
  (ev !! "summary" = None ->
   In "SUMMARY:No title" (lines (step_out e now ev n)))
  /\ (truthy (get ev "summary" (VStr "No title")) = false ->
      In "SUMMARY:" (lines (step_out e now ev n)))
  /\ (truthy (get ev "location" (VStr "")) = false ->
      count_tag "LOCATION:" (lines (step_out e now ev n)) = 0%nat)
  /\ (truthy (get ev "description" (VStr "")) = false ->
      count_tag "DESCRIPTION:" (lines (step_out e now ev n)) = 0%nat)
  /\ (truthy (get ev "end" VNone) = false ->
      count_tag "DTEND" (lines (step_out e now ev n)) = 0%nat).
Proof.
  intros Hc.
  assert (Efalsy : forall v, truthy v = false -> _escape v = Ok "").
  { intros v Hv. unfold _escape. now rewrite Hv. }
  split; [|split; [|split; [|split]]].
  - intros Hs. revert Hc. unfold_step.
    rewrite (get_absent ev "summary" _ Hs).
    replace (_escape (VStr "No title")) with (@Ok string "No title")
      by (vm_compute; reflexivity).
    case_step. all: intros H; try discriminate H. all: cbn [In]; pick_line.
  - intros Hs. revert Hc. unfold_step. rewrite (Efalsy _ Hs).
    case_step. all: intros H; try discriminate H. all: cbn [In]; pick_line.
  - intros Hs. revert Hc. unfold_step. rewrite (Efalsy _ Hs).
    cbn [String.eqb negb].
    case_step. all: intros H; try discriminate H. all: reflexivity.
  - intros Hs. revert Hc. unfold_step. rewrite (Efalsy _ Hs).
    cbn [String.eqb negb].
    case_step. all: intros H; try discriminate H. all: reflexivity.
  - intros Hs. revert Hc. unfold_step. rewrite Hs.
    case_step. all: intros H; try discriminate H. all: reflexivity.
Qed.

Lemma missing_keys_in_block_witness :
  count_blocks
    (lines (step_out env_utc "20250115T090000Z"
              {[ "start" := VDate (mkdate 2024 12 25) ]} 0)) = 1%nat
  /\ In "SUMMARY:No title"
       (lines (step_out env_utc "20250115T090000Z"
                 {[ "start" := VDate (mkdate 2024 12 25) ]} 0)).
Proof.
  assert (H : count_blocks
                (lines (step_out env_utc "20250115T090000Z"
                          {[ "start" := VDate (mkdate 2024 12 25) ]} 0))
              = 1%nat) by (vm_compute; reflexivity).
  split; [exact H|].
  apply (proj1 (missing_keys_in_block env_utc "20250115T090000Z"
                  {[ "start" := VDate (mkdate 2024 12 25) ]} 0 H)).
  vm_compute. reflexivity.
Defined.

(** ** The whole document *)

Lemma count_tag_app (tag : string) (a b : list string) :
  count_tag tag (a ++ b) = (count_tag tag a + count_tag tag b)%nat.
Proof. induction a as [|l a IH]; cbn; [reflexivity | rewrite IH; lia]. Qed.

Lemma step_out_stamp (e : env) (now : string) (ev : event) (n : nat) :
  Forall (fun l => forall x, strip_prefix "DTSTAMP:" l = Some x -> x = now)
    (lines (step_out e now ev n))
  /\ count_tag "DTSTAMP:" (lines (step_out e now ev n))
     = count_tag "BEGIN:VEVENT" (lines (step_out e now ev n)).
Proof.
  unfold_step. case_step.
  all: split; [|reflexivity].
  all: repeat (constructor;
               [intros x Hx;
                first [discriminate Hx | injection Hx as <-; reflexivity]|]).
  all: constructor.
Qed.


Lemma step_out_truncated (e : env) (now : string) (ev : event) (n : nat) :
  count_tag "BEGIN:VEVENT" (lines (step_out e now ev n))
  = (count_blocks (lines (step_out e now ev n))
     + (if end_faults e ev then 1 else 0))%nat.
Proof.
  unfold end_faults. rewrite !is_text_match. unfold_step.
  destruct (truthy (get ev "uid" VNone)) eqn:Hu;
    destruct (_escape (get ev "summary" (VStr "No title"))) eqn:H1;
    destruct (_escape (get ev "location" (VStr ""))) eqn:H2;
    destruct (_escape (get ev "description" (VStr ""))) eqn:H3;
    destruct (truthy (get ev "start" VNone)) eqn:Hs;
    cbn [negb andb lines log uuid_calls fst snd app]; try reflexivity.
  all: destruct (format_dt e (get ev "start" VNone)) as [[ds []]|ex] eqn:Hf;
    cbn [negb andb lines log uuid_calls fst snd app]; try reflexivity.
  all: destruct (truthy (get ev "end" VNone)) eqn:He;
    cbn [negb andb lines log uuid_calls fst snd app].
  all: try (destruct (format_dt e (get ev "end" VNone)) as [[es []]|ex] eqn:Hg;
            cbn [negb andb lines log uuid_calls fst snd app]).
  all: case_step; reflexivity.
Qed.

(** X12. A document has one truncated block, begun and never closed,
    for each record whose start was written and whose end then failed
    to format, and no other: the BEGIN:VEVENT lines are the END:VEVENT
    lines plus these records. When no record is of that kind, every
    block that is begun is closed. *)
Theorem truncated_blocks_counted (e : env) (events : list event) :
  count_tag "BEGIN:VEVENT" (build_ics_lines e events)
  = (count_blocks (build_ics_lines e events)
     + length (List.filter (end_faults e) events))%nat.
Proof.
  rewrite build_ics_lines_eq, !count_tag_app, !count_blocks_app.
  change (count_tag "BEGIN:VEVENT" HEADER) with 0%nat.
  change (count_tag "BEGIN:VEVENT" [FOOTER]) with 0%nat.
  change (count_blocks HEADER) with 0%nat.
  change (count_blocks [FOOTER]) with 0%nat.
  generalize (strftime_YmdTHMSZ (utcnow e)) as now. intros now.
  generalize 0%nat at 2 5 as n.
  induction events as [|ev events IH]; intros n; [reflexivity|].
  rewrite loop_out_cons. cbn [lines List.filter].
  rewrite count_tag_app, count_blocks_app, step_out_truncated.
  specialize (IH (uuid_calls (step_out e now ev n))).
  destruct (end_faults e ev); cbn [length]; lia.
Qed.

(** ** Documents of concatenated inputs *)

Lemma format_dt_shift (e : env) (k : nat) (v : pyval) :
  format_dt (shift_uuid e k) v = format_dt e v.
Proof.
  unfold format_dt, astimezone_utc, local_timezone_from_local,
    local_to_seconds, local_to_seconds_end, local, shift_uuid.
  cbn [tz_gmtoff naive_fold]. reflexivity.
Qed.

Lemma step_out_shift (e : env) (now : string) (ev : event) (k n : nat) :
  lines (step_out (shift_uuid e k) now ev n) = lines (step_out e now ev (k + n))
  /\ log (step_out (shift_uuid e k) now ev n) = log (step_out e now ev (k + n))
  /\ (k + uuid_calls (step_out (shift_uuid e k) now ev n))%nat
     = uuid_calls (step_out e now ev (k + n)).
Proof.
  unfold_step. rewrite !format_dt_shift. cbn [uuid4 shift_uuid].
  case_step. all: repeat split; try reflexivity; lia.
Qed.

Lemma loop_out_shift (e : env) (now : string) (events : list event) (k : nat) :
  forall n : nat,
    lines (loop_out (shift_uuid e k) now events n)
    = lines (loop_out e now events (k + n))
    /\ log (loop_out (shift_uuid e k) now events n)
       = log (loop_out e now events (k + n)).
Proof.
  induction events as [|ev events IH]; intros n.
  - rewrite !loop_out_nil. auto.
  - rewrite !loop_out_cons. cbv zeta. cbn [lines log].
    destruct (step_out_shift e now ev k n) as (Hl & Hg & Hc).
    destruct (IH (uuid_calls (step_out (shift_uuid e k) now ev n))) as [Il Ig].
    rewrite Hl, Hg, Il, Ig, Hc. auto.
Qed.

Lemma loop_out_calls (e : env) (now : string) (events : list event) :
  forall n : nat,
    uuid_calls (loop_out e now events n) = (n + drawn events)%nat.
Proof.
  unfold drawn.
  induction events as [|ev events IH]; intros n.
  - rewrite loop_out_nil. cbn. lia.
  - rewrite loop_out_cons. cbv zeta. cbn [uuid_calls List.filter].
    rewrite IH, step_out_calls.
    destruct (truthy (get ev "uid" VNone)); cbn [negb length]; lia.
Qed.

(** X13. The lines of a document are the header, the lines of the events
    and the footer; and the lines and the log entries of a sequence of
    events put after another are those of the first sequence followed by
    those of the second one taken alone, with the identifier generator
    advanced by the number of records of the first sequence that bring
    no usable uid (dropped records draw identifiers too). So blocks come
    in the order of the input, and a record's lines depend on the
    records before it only through the identifiers they drew. *)
Theorem document_of_concatenation (e : env) (a b : list event) :
  build_ics_lines e a = HEADER ++ event_lines e a ++ [FOOTER]
  /\ event_lines e (a ++ b)
     = event_lines e a ++ event_lines (shift_uuid e (drawn a)) b
  /\ build_ics_log e (a ++ b)
     = build_ics_log e a ++ build_ics_log (shift_uuid e (drawn a)) b.
Proof.
  split; [apply build_ics_lines_eq|]. unfold event_lines.
  rewrite !build_ics_log_eq. cbn [utcnow shift_uuid].
  rewrite loop_out_app. cbv zeta. cbn [lines log].
  rewrite loop_out_calls. cbn [Nat.add].
  destruct (loop_out_shift e (strftime_YmdTHMSZ (utcnow e)) b (drawn a) 0)
    as [Hl Hg].
  rewrite Hl, Hg, Nat.add_0_r. auto.
Qed.

(** ** The sample events *)

Lemma check_date_fields_valid (y m d : Z) :
  check_date_fields y m d = true <-> valid_date (mkdate y m d).
Proof.
  unfold check_date_fields, valid_date. cbn [year month day].
  rewrite !andb_true_iff, !Z.leb_le. tauto.
Qed.

Lemma days_in_month_ge_28 (y m : Z) :
  1 <= m <= 12 -> 28 <= days_in_month y m.
Proof.
  intros Hm. unfold days_in_month. by_month Hm; cbn; destruct (is_leap y); lia.
Qed.

Lemma datetime_new_clamped (d : date) :
  valid_date d ->
  datetime_new (year d) (month d) (Z.min (day d + 10) 28) 19 30
  = Returns (mkdtime (mkdate (year d) (month d) (Z.min (day d + 10) 28)) 19 30 0 0)
  /\ valid_dtime (mkdtime (mkdate (year d) (month d) (Z.min (day d + 10) 28))
                    19 30 0 0).
Proof.
  intros (Hy & Hm & Hd).
  assert (Hv : valid_date (mkdate (year d) (month d) (Z.min (day d + 10) 28))).
  { pose proof (days_in_month_ge_28 (year d) (month d) Hm).
    unfold valid_date. cbn [year month day]. lia. }
  split.
  - unfold datetime_new. apply check_date_fields_valid in Hv. now rewrite Hv.
  - unfold valid_dtime, US_PER_SECOND. cbn [dt_date hour minute second microsecond].
    split; [exact Hv | lia].
Qed.

Lemma date_add_days_spec (d : date) (n : Z) :
  (0 < ymd2ord d + n <= MAXORDINAL ->
   exists d', date_add_days d n = Returns d' /\ valid_date d'
              /\ ymd2ord d' = ymd2ord d + n)
  /\ (~ 0 < ymd2ord d + n <= MAXORDINAL ->
      date_add_days d n = Raises (Raised OverflowError)).
Proof.
  unfold date_add_days. cbv zeta. split; intros H.
  - replace ((0 <? ymd2ord d + n) && (ymd2ord d + n <=? MAXORDINAL)) with true
      by (symmetry; apply andb_true_iff; split;
          [apply Z.ltb_lt | apply Z.leb_le]; lia).
    destruct (ord2ymd_spec (ymd2ord d + n)) as [Hv Ho]; [lia|]. eauto.
  - replace ((0 <? ymd2ord d + n) && (ymd2ord d + n <=? MAXORDINAL)) with false;
      [reflexivity|].
    symmetry. apply andb_false_iff.
    destruct (Z.ltb_spec 0 (ymd2ord d + n)); [right; apply Z.leb_gt; lia | now left].
Qed.

(** X14. When the three reads of the clock give valid dates and the
    dates 30 and 15 days later exist, [sample_events] returns its three
    records: the first starts at 19:30 of the day [min(day + 10, 28)] of
    the current month, a valid naive timestamp in every month, and the
    other two start on the valid dates whose day numbers are 30 and 15
    more than those of the days read. *)
Theorem sample_events_returns (today : nat -> date) :
  valid_date (today 0%nat) -> valid_date (today 1%nat) ->
  valid_date (today 2%nat) ->
  ymd2ord (today 1%nat) + 30 <= MAXORDINAL ->
  ymd2ord (today 2%nat) + 15 <= MAXORDINAL ->
  exists (start1 : dtime) (start2 start3 : date),
    sample_events today = Returns (sample_records start1 start2 start3)
    /\ start1 = mkdtime (mkdate (year (today 0%nat)) (month (today 0%nat))
                           (Z.min (day (today 0%nat) + 10) 28)) 19 30 0 0
    /\ valid_dtime start1
    /\ valid_date start2 /\ ymd2ord start2 = ymd2ord (today 1%nat) + 30
    /\ valid_date start3 /\ ymd2ord start3 = ymd2ord (today 2%nat) + 15.
Proof.
  intros H0 H1 H2 R1 R2.
  destruct (datetime_new_clamped _ H0) as [E0 V0].
  pose proof (ymd2ord_bounds _ H1). pose proof (ymd2ord_bounds _ H2).
  destruct (proj1 (date_add_days_spec (today 1%nat) 30)) as (d2 & E1 & V1 & O1);
    [lia|].
  destruct (proj1 (date_add_days_spec (today 2%nat) 15)) as (d3 & E2 & V2 & O2);
    [lia|].
  eexists _, d2, d3. unfold sample_events. cbv zeta. rewrite E0, E1, E2.
  split; [reflexivity|]. split; [reflexivity|]. auto 10.
Qed.

Lemma sample_events_returns_witness :
  valid_date (mkdate 2024 2 25)
  /\ ymd2ord (mkdate 2024 2 25) + 30 <= MAXORDINAL
  /\ exists (start1 : dtime) (start2 start3 : date),
       sample_events (fixed_clock (mkdate 2024 2 25))
       = Returns (sample_records start1 start2 start3)
       /\ valid_dtime start1.
Proof.
  assert (H : valid_date (mkdate 2024 2 25))
    by (unfold valid_date; vm_compute; intuition discriminate).
  assert (R1 : ymd2ord (fixed_clock (mkdate 2024 2 25) 1%nat) + 30 <= MAXORDINAL)
    by (vm_compute; intros C; discriminate C).
  assert (R2 : ymd2ord (fixed_clock (mkdate 2024 2 25) 2%nat) + 15 <= MAXORDINAL)
    by (vm_compute; intros C; discriminate C).
  split; [exact H|]. split; [exact R1|].
  destruct (sample_events_returns (fixed_clock (mkdate 2024 2 25)) H H H R1 R2)
    as (s1 & s2 & s3 & E & _ & V & _).
  exists s1, s2, s3. auto.
Defined.

(** X15. With valid dates on the clock [sample_events] never raises the
    [ValueError] of a constructor: it raises only [OverflowError], and
    exactly when the date 30 days after the second read or 15 days after
    the third read is past the last day a [date] can hold. *)
Theorem sample_events_raises (today : nat -> date) :
  valid_date (today 0%nat) -> valid_date (today 1%nat) ->
  valid_date (today 2%nat) ->
  sample_events today <> Raises ValueError
  /\ (sample_events today = Raises (Raised OverflowError)
      <-> MAXORDINAL < ymd2ord (today 1%nat) + 30
          \/ MAXORDINAL < ymd2ord (today 2%nat) + 15)
  /\ (forall x : raised,
        sample_events today = Raises x -> x = Raised OverflowError).
Proof.
  intros H0 H1 H2.
  destruct (datetime_new_clamped _ H0) as [E0 _].
  pose proof (ymd2ord_bounds _ H1) as B1. pose proof (ymd2ord_bounds _ H2) as B2.
  unfold sample_events. cbv zeta. rewrite E0.
  destruct (Z_le_gt_dec (ymd2ord (today 1%nat) + 30) MAXORDINAL) as [R1|R1].
  - destruct (proj1 (date_add_days_spec (today 1%nat) 30)) as (d2 & -> & _);
      [lia|].
    destruct (Z_le_gt_dec (ymd2ord (today 2%nat) + 15) MAXORDINAL) as [R2|R2].
    + destruct (proj1 (date_add_days_spec (today 2%nat) 15)) as (d3 & -> & _);
        [lia|].
      split; [discriminate|]. split; [|discriminate].
      split; [discriminate | lia].
    + rewrite (proj2 (date_add_days_spec (today 2%nat) 15)) by lia.
      split; [discriminate|]. split; [|congruence].
      split; [intros _; right; lia | reflexivity].
  - rewrite (proj2 (date_add_days_spec (today 1%nat) 30)) by lia.
    split; [discriminate|]. split; [|congruence].
    split; [intros _; left; lia | reflexivity].
Qed.

Lemma sample_events_raises_witness :
  valid_date (mkdate 9999 12 20)
  /\ sample_events (fixed_clock (mkdate 9999 12 20))
     = Raises (Raised OverflowError).
Proof.
  assert (H : valid_date (mkdate 9999 12 20))
    by (unfold valid_date; vm_compute; intuition discriminate).
  split; [exact H|].
  apply (proj1 (proj2 (sample_events_raises (fixed_clock (mkdate 9999 12 20))
                         H H H))).
  left. vm_compute. reflexivity.
Defined.

(** ** The document of the sample events *)

Lemma step_out_no_end (e : env) (now : string) (ev : event) (n : nat)
  (r1 r2 r3 ds : string) (is_date : bool) :
  _escape (get ev "summary" (VStr "No title")) = Ok r1 ->
  _escape (get ev "location" (VStr "")) = Ok r2 ->
  _escape (get ev "description" (VStr "")) = Ok r3 ->
  String.eqb r2 "" = false -> String.eqb r3 "" = false ->
  truthy (get ev "uid" VNone) = false ->
  truthy (get ev "start" VNone) = true ->
  format_dt e (get ev "start" VNone) = Ok (ds, is_date) ->
  truthy (get ev "end" VNone) = false ->
  step_out e now ev n
  = mkstate
      [ "BEGIN:VEVENT"; "UID:" +:+ uuid4 e n; "DTSTAMP:" +:+ now;
        (if is_date then "DTSTART;VALUE=DATE:" else "DTSTART:") +:+ ds;
        "SUMMARY:" +:+ r1; "LOCATION:" +:+ r2; "DESCRIPTION:" +:+ r3;
        "END:VEVENT" ]
      [] (S n).
Proof.
  intros H1 H2 H3 N2 N3 Hu Hs Hf He. unfold_step.
  rewrite Hu, H1, H2, H3, Hs, Hf, He, N2, N3. now destruct is_date.
Qed.

Lemma sample_record_fields (a b c d dflt : pyval) :
  get {[ "summary" := a; "location" := b; "start" := c; "description" := d ]}
    "summary" dflt = a
  /\ get {[ "summary" := a; "location" := b; "start" := c; "description" := d ]}
       "location" dflt = b
  /\ get {[ "summary" := a; "location" := b; "start" := c; "description" := d ]}
       "start" dflt = c
  /\ get {[ "summary" := a; "location" := b; "start" := c; "description" := d ]}
       "description" dflt = d
  /\ get {[ "summary" := a; "location" := b; "start" := c; "description" := d ]}
       "uid" dflt = dflt
  /\ get {[ "summary" := a; "location" := b; "start" := c; "description" := d ]}
       "end" dflt = dflt.
Proof. repeat split; vm_compute; reflexivity. Qed.

Lemma sample_record_step (e : env) (now : string) (n : nat)
  (a b d r1 r2 r3 : string) (c : pyval) (ds : string) (is_date : bool) :
  _escape (VStr a) = Ok r1 -> _escape (VStr b) = Ok r2 ->
  _escape (VStr d) = Ok r3 ->
  String.eqb r2 "" = false -> String.eqb r3 "" = false ->
  truthy c = true -> format_dt e c = Ok (ds, is_date) ->
  step_out e now
    {[ "summary" := VStr a; "location" := VStr b; "start" := c;
       "description" := VStr d ]} n
  = mkstate
      [ "BEGIN:VEVENT"; "UID:" +:+ uuid4 e n; "DTSTAMP:" +:+ now;
        (if is_date then "DTSTART;VALUE=DATE:" else "DTSTART:") +:+ ds;
        "SUMMARY:" +:+ r1; "LOCATION:" +:+ r2; "DESCRIPTION:" +:+ r3;
        "END:VEVENT" ]
      [] (S n).
Proof.
  intros H1 H2 H3 N2 N3 Hs Hf.
  pose proof (sample_record_fields (VStr a) (VStr b) c (VStr d)) as F.
  apply step_out_no_end.
  - destruct (F (VStr "No title")) as (-> & _). exact H1.
  - destruct (F (VStr "")) as (_ & -> & _). exact H2.
  - destruct (F (VStr "")) as (_ & _ & _ & -> & _). exact H3.
  - exact N2.
  - exact N3.
  - destruct (F VNone) as (_ & _ & _ & _ & -> & _). reflexivity.
  - destruct (F VNone) as (_ & _ & -> & _). exact Hs.
  - destruct (F VNone) as (_ & _ & -> & _). exact Hf.
  - destruct (F VNone) as (_ & _ & _ & _ & _ & ->). reflexivity.
Qed.

Lemma day_number_range (d : date) :
  valid_date d -> day d <= 28 ->
  day d <= ymd2ord d <= MAXORDINAL - 3.
Proof.
  intros Hv H28. pose proof Hv as ((Hy1 & Hy2) & Hm & Hd).
  unfold ymd2ord, MINYEAR, MAXYEAR in *.
  pose proof (days_before_year_mono 1 (year d) Hy1) as L.
  change (days_before_year 1) with 0 in L.
  assert (Hnext : year d + 1 <= 10000) by lia.
  apply days_before_year_mono in Hnext.
  rewrite days_before_year_step in Hnext.
  change (days_before_year 10000) with 3652059 in Hnext.
  assert (Hb : 0 <= days_before_month (year d) (month d)
               /\ days_before_month (year d) (month d) + 28
                  <= 362 + (if is_leap (year d) then 1 else 0)).
  { unfold days_before_month. by_month Hm; cbn; destruct (is_leap (year d)); lia. }
  unfold MAXORDINAL. lia.
Qed.

Lemma sample_start_in_range (d : date) :
  valid_date d ->
  4 <= ymd2ord (mkdate (year d) (month d) (Z.min (day d + 10) 28))
  <= MAXORDINAL - 3.
Proof.
  intros Hv. destruct (datetime_new_clamped d Hv) as [_ (Hvd & _)].
  cbn [dt_date] in Hvd.
  pose proof (day_number_range _ Hvd) as Hr. cbn [day] in Hr.
  destruct Hv as (_ & _ & Hd). lia.
Qed.

Lemma loop_out_three (e : env) (now : string) (r1 r2 r3 : event) (n : nat)
  (l1 l2 l3 : list string) :
  step_out e now r1 n = mkstate l1 [] (S n) ->
  step_out e now r2 (S n) = mkstate l2 [] (S (S n)) ->
  step_out e now r3 (S (S n)) = mkstate l3 [] (S (S (S n))) ->
  loop_out e now [r1; r2; r3] n = mkstate (l1 ++ l2 ++ l3) [] (S (S (S n))).
Proof.
  intros H1 H2 H3.
  rewrite loop_out_cons. cbv zeta. rewrite H1. cbn [lines log uuid_calls].
  rewrite loop_out_cons. cbv zeta. rewrite H2. cbn [lines log uuid_calls].
  rewrite loop_out_cons. cbv zeta. rewrite H3. cbn [lines log uuid_calls].
  rewrite loop_out_nil. cbn [lines log uuid_calls]. now rewrite !app_nil_r.
Qed.

Lemma sample_records_lines (e : env) (start1 u : dtime) (start2 start3 : date) :
  format_dt e (VDateTime start1 None) = Ok (strftime_YmdTHMSZ u, false) ->
  build_ics_log e (sample_records start1 start2 start3) = []
  /\ build_ics_lines e (sample_records start1 start2 start3)
       = HEADER
         ++ [ "BEGIN:VEVENT"; "UID:" +:+ uuid4 e 0;
              "DTSTAMP:" +:+ strftime_YmdTHMSZ (utcnow e);
              "DTSTART:" +:+ strftime_YmdTHMSZ u;
              "SUMMARY:Jimmy Carr: Laughs Funny";
              "LOCATION:Connexin Live\, Hull";
              "DESCRIPTION:Connexin Live show — check tickets.";
              "END:VEVENT";
              "BEGIN:VEVENT"; "UID:" +:+ uuid4 e 1;
              "DTSTAMP:" +:+ strftime_YmdTHMSZ (utcnow e);
              "DTSTART;VALUE=DATE:" +:+ strftime_Ymd start2;
              "SUMMARY:Wicked — Opening Weekend (sample)";
              "LOCATION:Vue Hull Princes Quay";
              "DESCRIPTION:Cinema opening (sample entry)";
              "END:VEVENT";
              "BEGIN:VEVENT"; "UID:" +:+ uuid4 e 2;
              "DTSTAMP:" +:+ strftime_YmdTHMSZ (utcnow e);
              "DTSTART;VALUE=DATE:" +:+ strftime_Ymd start3;
              "SUMMARY:Dune: Part Two — Sample";
              "LOCATION:Odeon Luxe Hull";
              "DESCRIPTION:Sample cinema entry";
              "END:VEVENT" ]
         ++ [FOOTER].
Proof.
  intros Hf. set (now := strftime_YmdTHMSZ (utcnow e)).
  pose proof (sample_record_step e now 0
                "Jimmy Carr: Laughs Funny" "Connexin Live, Hull"
                "Connexin Live show — check tickets."
                "Jimmy Carr: Laughs Funny" "Connexin Live\, Hull"
                "Connexin Live show — check tickets."
                (VDateTime start1 None) (strftime_YmdTHMSZ u) false
                eq_refl eq_refl eq_refl eq_refl eq_refl eq_refl Hf) as S1.
  pose proof (sample_record_step e now 1
                "Wicked — Opening Weekend (sample)" "Vue Hull Princes Quay"
                "Cinema opening (sample entry)"
                "Wicked — Opening Weekend (sample)" "Vue Hull Princes Quay"
                "Cinema opening (sample entry)"
                (VDate start2) (strftime_Ymd start2) true
                eq_refl eq_refl eq_refl eq_refl eq_refl eq_refl eq_refl) as S2.
  pose proof (sample_record_step e now 2
                "Dune: Part Two — Sample" "Odeon Luxe Hull"
                "Sample cinema entry"
                "Dune: Part Two — Sample" "Odeon Luxe Hull"
                "Sample cinema entry"
                (VDate start3) (strftime_Ymd start3) true
                eq_refl eq_refl eq_refl eq_refl eq_refl eq_refl eq_refl) as S3.
  pose proof (loop_out_three e now _ _ _ 0 _ _ _ S1 S2 S3) as Hloop.
  rewrite build_ics_log_eq, build_ics_lines_eq. fold now.
  unfold sample_records. rewrite Hloop. split; reflexivity.
Qed.

(** X16. The document of the sample events. When
    [fetch_real_events_placeholder] returns, on a valid date and with
    a local offset of less than a day, [build_ics] on its records drops
    none and logs nothing: the document is the header, three complete
    blocks in the order of the records, and the footer. Each block has a
    generated identifier, the shared DTSTAMP, its start (the first as
    the UTC stamp of 19:30 local time, the others as dates), its title
    as it is, its location with the comma escaped, and its description. *)
Theorem sample_document (e : env) (today : nat -> date) (events : list event) :
  fetch_real_events_placeholder today = Returns events ->
  valid_date (today 0%nat) ->
  (forall t : dtime, - 86400 < local_gmtoff e t < 86400) ->
  exists (start1 u : dtime) (start2 start3 : date),
    events = sample_records start1 start2 start3
    /\ valid_dtime u
    /\ instant u 0 = instant start1 (local_gmtoff e start1 * US_PER_SECOND)
    /\ build_ics_log e events = []
    /\ count_blocks (build_ics_lines e events) = 3%nat
    /\ build_ics_lines e events
       = HEADER
         ++ [ "BEGIN:VEVENT"; "UID:" +:+ uuid4 e 0;
              "DTSTAMP:" +:+ strftime_YmdTHMSZ (utcnow e);
              "DTSTART:" +:+ strftime_YmdTHMSZ u;
              "SUMMARY:Jimmy Carr: Laughs Funny";
              "LOCATION:Connexin Live\, Hull";
              "DESCRIPTION:Connexin Live show — check tickets.";
              "END:VEVENT";
              "BEGIN:VEVENT"; "UID:" +:+ uuid4 e 1;
              "DTSTAMP:" +:+ strftime_YmdTHMSZ (utcnow e);
              "DTSTART;VALUE=DATE:" +:+ strftime_Ymd start2;
              "SUMMARY:Wicked — Opening Weekend (sample)";
              "LOCATION:Vue Hull Princes Quay";
              "DESCRIPTION:Cinema opening (sample entry)";
              "END:VEVENT";
              "BEGIN:VEVENT"; "UID:" +:+ uuid4 e 2;
              "DTSTAMP:" +:+ strftime_YmdTHMSZ (utcnow e);
              "DTSTART;VALUE=DATE:" +:+ strftime_Ymd start3;
              "SUMMARY:Dune: Part Two — Sample";
              "LOCATION:Odeon Luxe Hull";
              "DESCRIPTION:Sample cinema entry";
              "END:VEVENT" ]
         ++ [FOOTER].
Proof.
  intros Hfetch Hv Hoff. unfold fetch_real_events_placeholder in Hfetch.
  destruct (datetime_new_clamped _ Hv) as [E0 V0].
  unfold sample_events in Hfetch. cbv zeta in Hfetch. rewrite E0 in Hfetch.
  destruct (date_add_days (today 1%nat) 30) as [start2|x]; [|discriminate].
  destruct (date_add_days (today 2%nat) 15) as [start3|x]; [|discriminate].
  injection Hfetch as <-.
  destruct (format_dt_naive_safe e _ (proj2 (datetime_new_clamped _ Hv))
              (sample_start_in_range _ Hv)) as (u & Hvu & Hi & Hf).
  eexists _, u, start2, start3.
  split; [reflexivity|]. split; [exact Hvu|]. split; [exact Hi|].
  destruct (sample_records_lines e _ u start2 start3 Hf) as [Hlog Hlines].
  split; [exact Hlog|]. split; [|exact Hlines].
  rewrite Hlines, !count_blocks_app. reflexivity.
Qed.

Lemma sample_document_witness :
  fetch_real_events_placeholder (fixed_clock (mkdate 2024 2 25))
  = Returns (sample_records
               (mkdtime (mkdate 2024 2 28) 19 30 0 0)
               (mkdate 2024 3 26) (mkdate 2024 3 11))
  /\ valid_date (fixed_clock (mkdate 2024 2 25) 0%nat)
  /\ (forall t : dtime, - 86400 < local_gmtoff env_bst t < 86400)
  /\ build_ics_log env_bst
       (sample_records (mkdtime (mkdate 2024 2 28) 19 30 0 0)
          (mkdate 2024 3 26) (mkdate 2024 3 11))
     = [].
Proof.
  assert (E0 : datetime_new 2024 2 (Z.min (25 + 10) 28) 19 30
               = Returns (mkdtime (mkdate 2024 2 28) 19 30 0 0))
    by (vm_compute; reflexivity).
  assert (E1 : date_add_days (mkdate 2024 2 25) 30 = Returns (mkdate 2024 3 26))
    by (vm_compute; reflexivity).
  assert (E2 : date_add_days (mkdate 2024 2 25) 15 = Returns (mkdate 2024 3 11))
    by (vm_compute; reflexivity).
  assert (H1 : fetch_real_events_placeholder (fixed_clock (mkdate 2024 2 25))
               = Returns (sample_records
                            (mkdtime (mkdate 2024 2 28) 19 30 0 0)
                            (mkdate 2024 3 26) (mkdate 2024 3 11))).
  { unfold fetch_real_events_placeholder, sample_events, fixed_clock.
    cbv zeta. cbn [year month day]. now rewrite E0, E1, E2. }
  assert (H2 : valid_date (fixed_clock (mkdate 2024 2 25) 0%nat))
    by (unfold valid_date; vm_compute; intuition discriminate).
  assert (H3 : forall t : dtime, - 86400 < local_gmtoff env_bst t < 86400)
    by (intros t; unfold local_gmtoff;
        destruct (local_to_seconds env_bst t (naive_fold env_bst t));
        cbn; lia).
  split; [exact H1|]. split; [exact H2|]. split; [exact H3|].
  destruct (sample_document env_bst _ _ H1 H2 H3)
    as (s1 & u & s2 & s3 & _ & _ & _ & Hlog & _).
  exact Hlog.
Defined.

(** ** Reading the document back *)

Lemma strftime_Ymd_no_LF (d : date) :
  valid_date d -> has_char LF (strftime_Ymd d) = false.
Proof.
  intros Hv. apply all_digits_no_LF. now apply strftime_Ymd_spec.
Qed.

Lemma strftime_YmdTHMSZ_no_LF (t : dtime) :
  valid_dtime t -> has_char LF (strftime_YmdTHMSZ t) = false.
Proof.
  intros Hv. rewrite strftime_YmdTHMSZ_parts, has_char_app.
  rewrite (strftime_Ymd_no_LF _ (proj1 Hv)). cbn [has_char orb].
  rewrite has_char_app, all_digits_no_LF by now apply strftime_HMS_spec.
  reflexivity.
Qed.

Lemma format_dt_no_LF (e : env) (v : pyval) (s : string) (b : bool) :
  valid_start v -> format_dt e v = Ok (s, b) -> has_char LF s = false.
Proof.
  destruct v as [| | |d|t tz]; try discriminate.
  - cbn. intros Hv H. injection H as <- _. now apply strftime_Ymd_no_LF.
  - intros _ H. apply format_dt_timestamp_ok in H as (_ & u & Hu & _ & ->).
    now apply strftime_YmdTHMSZ_no_LF.
Qed.

Lemma tagged_no_LF (tag x : string) :
  has_char LF tag = false -> has_char LF x = false ->
  has_char LF (tag ++ x) = false.
Proof. intros Ht Hx. now rewrite has_char_app, Ht, Hx. Qed.

Lemma step_out_no_LF (e : env) (now : string) (ev : event) (n : nat) :
  has_char LF now = false ->
  has_char LF (uuid4 e n) = false ->
  has_char LF (py_str (get ev "uid" VNone)) = false ->
  valid_start (get ev "start" VNone) ->
  valid_start (get ev "end" VNone) ->
  Forall (fun l => has_char LF l = false) (lines (step_out e now ev n)).
Proof.
  intros Hnow Huuid Huid Hstart Hend. unfold_step. case_step.
  all: repeat (constructor;
               [first [ reflexivity
                      | apply tagged_no_LF;
                        [reflexivity
                        |first [ assumption
                               | eapply _escape_no_LF; eassumption
                               | eapply format_dt_no_LF; [|eassumption];
                                 assumption ]] ]|]).
  all: constructor.
Qed.

(** X17. No record breaks the lines of the document unless its uid
    holds a newline: when the clock gives a valid timestamp, the
    generated identifiers and the uids the records bring hold no
    newline, and the dates given as start and end are valid dates,
    splitting the document at its CRLF separators gives back exactly the
    lines that [build_ics] appended, whatever the texts of the records. *)
Theorem document_reads_back (e : env) (events : list event) :
  valid_dtime (utcnow e) ->
  (forall n : nat, has_char LF (uuid4 e n) = false) ->
  Forall (fun ev => has_char LF (py_str (get ev "uid" VNone)) = false
                    /\ valid_start (get ev "start" VNone)
                    /\ valid_start (get ev "end" VNone)) events ->
  exists doc : string,
    build_ics e events = Ok doc
    /\ split_crlf doc = build_ics_lines e events.
Proof.
  intros Hnow Huuid Hev. exists (str_join CRLF (build_ics_lines e events)).
  split; [apply build_ics_eq|].
  rewrite split_crlf_join by (rewrite build_ics_lines_eq; discriminate).
  assert (Hall : Forall (fun l => has_char LF l = false)
                   (build_ics_lines e events)).
  { rewrite build_ics_lines_eq.
    apply strftime_YmdTHMSZ_no_LF in Hnow. revert Hnow.
    generalize (strftime_YmdTHMSZ (utcnow e)) as now. intros now Hnow.
    apply Forall_app. split; [|apply Forall_app; split].
    - unfold HEADER. repeat (constructor; [reflexivity|]). constructor.
    - generalize 0%nat as n. induction Hev as [|ev events (Hu & Hs & He) _ IH];
        intros n.
      + rewrite loop_out_nil. constructor.
      + rewrite loop_out_cons. cbn [lines]. apply Forall_app. split.
        * now apply step_out_no_LF.
        * apply IH.
    - repeat (constructor; [reflexivity|]). constructor. }
  induction Hall as [|l ls Hl _ IH]; [reflexivity|].
  cbn [map concat]. now rewrite split_crlf_no_LF, IH.
Qed.

Lemma sample_uuid_no_LF (n : nat) : has_char LF (sample_uuid n) = false.
Proof.
  unfold sample_uuid. rewrite has_char_app.
  replace (has_char LF "00000000-0000-4000-8000-") with false by reflexivity.
  cbn [orb]. unfold NilEmpty.string_of_int.
  destruct (Z.to_int (100000000000 + Z.of_nat n)) as [u|u].
  - induction u; cbn; auto.
  - cbn. induction u; cbn; auto.
Qed.

Lemma document_reads_back_witness :
  valid_dtime (utcnow env_utc)
  /\ (forall n : nat, has_char LF (uuid4 env_utc n) = false)
  /\ Forall (fun ev => has_char LF (py_str (get ev "uid" VNone)) = false
                       /\ valid_start (get ev "start" VNone)
                       /\ valid_start (get ev "end" VNone))
       [ev_uid_a; ev_bad_end; ev_no_start]
  /\ exists doc : string,
       build_ics env_utc [ev_uid_a; ev_bad_end; ev_no_start] = Ok doc
       /\ split_crlf doc = build_ics_lines env_utc [ev_uid_a; ev_bad_end; ev_no_start].
Proof.
  assert (H1 : valid_dtime (utcnow env_utc)).
  { unfold valid_dtime, valid_date. vm_compute. intuition discriminate. }
  assert (H2 : forall n : nat, has_char LF (uuid4 env_utc n) = false)
    by exact sample_uuid_no_LF.
  assert (H3 : Forall (fun ev => has_char LF (py_str (get ev "uid" VNone)) = false
                                 /\ valid_start (get ev "start" VNone)
                                 /\ valid_start (get ev "end" VNone))
                 [ev_uid_a; ev_bad_end; ev_no_start]).
  { repeat constructor; try (vm_compute; reflexivity);
      try (vm_compute; intuition discriminate). }
  split; [exact H1|]. split; [exact H2|]. split; [exact H3|].
  exact (document_reads_back env_utc _ H1 H2 H3).
Defined.

(** X18. On a timestamp that carries a UTC offset, [format_dt] raises
    exactly when the instant it denotes in UTC is outside what a
    [datetime] can hold, before the start of year 1 or after the end of
    year 9999, and the exception is then [OverflowError]. *)
Theorem timestamp_overflow_iff (e : env) (t : dtime) (off : timedelta) :
  ((exists ex : exn, format_dt e (VDateTime t (Some off)) = Raise ex)
   <-> ~ representable (instant t off))
  /\ (forall ex : exn,
        format_dt e (VDateTime t (Some off)) = Raise ex ->
        ex = OverflowError).
Proof.
  rewrite format_dt_aware. unfold instant.
  destruct (representable_dec (dtime_to_us t - off)) as [Hr|Hr].
  - destruct (dtime_sub_spec t _ Hr) as (u & -> & _). split.
    + split; [intros [ex H]; discriminate H | intros H; contradiction].
    + intros ex H. discriminate H.
  - rewrite dtime_sub_overflow by exact Hr. split.
    + split; [auto | eauto].
    + intros ex H. now injection H as <-.
Qed.
